(** * The mention-reply bot of twitter-reply-bot.py

    A shallow embedding of the class [TwitterBot] and of the scheduled [job]
    of [src/twitter-reply-bot.py], and the properties of its mention pipeline.

    The three collaborators of the program (the Twitter client, the Airtable
    table and the language model) are outside the program.  Their behaviour is
    an environment [Env] of oracles: every call either returns a value or
    raises, and the answer may depend on the arguments and on how many calls
    were made before.  The Airtable table is the list of its rows, read by
    [get_all] and extended by [insert].  Every call to a collaborator is written
    to a trace, so that "the store is not accessed" is a statement about the
    trace. *)

From Stdlib Require Import String DecimalString DecimalZ.
From Stdlib Require Import ZArith List Bool Lia.
Import ListNotations.
Open Scope Z_scope.

(** ** Data *)

(** A mention as returned by [get_users_mentions] with the tweet fields
    [created_at] and [conversation_id]. *)
Record Mention := {
  mention_id : Z;
  conversation_id : option Z;
  created_at : Z
}.

(** The [data] of a [get_tweet] response. *)
Record Tweet := {
  tweet_id : Z;
  tweet_text : string
}.

(** The [fields] of an Airtable row.  [record["fields"].get(key)] is [None]
    on a row without the key, so the key field is optional.  Time stamps are
    kept as numbers (seconds); [isoformat] only prints them. *)
Record ReplyRecord := {
  mentioned_conversation_tweet_id : option string;
  mentioned_conversation_tweet_text : string;
  tweet_response_id : string;
  tweet_response_text : string;
  tweet_response_created_at : Z;
  mentioned_at : Z
}.

(** The instance fields of [TwitterBot] that are data; the three clients are
    the environment. *)
Record TwitterBot := {
  twitter_me_id : Z;
  tweet_response_limit : Z;
  mentions_found : Z;
  mentions_replied : Z;
  mentions_replied_errors : Z
}.

(** Python exceptions.  All of them are subclasses of [Exception]:
    [AttributeError] is what [None.id] raises, the others come from a
    collaborator. *)
Inductive Exn :=
| AttributeError
| TwitterError (msg : string)
| AirtableError (msg : string)
| LlmError (msg : string).

Inductive Result (A : Type) :=
| Ok (a : A)
| Raised (e : Exn).
Arguments Ok {A} a.
Arguments Raised {A} e.

Definition is_raised {A} (r : Result A) : bool :=
  match r with Ok _ => false | Raised _ => true end.

(** What a method returns when it returns no value of interest: [None] by
    falling off or by a bare [return], or [True]. *)
Inductive PyRet := RNone | RTrue.

(** ** The collaborators *)

Inductive Call :=
| GetMe
| GetUsersMentions (user : Z) (start_time : Z)
| GetTweet (id : Z)
| CreateTweet (text : string) (in_reply_to_tweet_id : Z)
| LlmInvoke (text : string)
| AirtableGetAll
| AirtableInsert (row : ReplyRecord).

Record Event := {
  ev_call : Call;
  ev_raised : bool
}.

(** Lines printed on standard output. *)
Inductive Line :=
| LNoMentions
| LExn (e : Exn)
| LStartingJob (now : Z)
| LFinishedJob (now : Z) (found replied errors : Z)
| LJobExecuted (now : Z).

(** The world outside the bot: the rows of the table in the order they were
    appended, the calls made so far and the lines printed so far, the two
    latter with the most recent first. *)
Record World := {
  airtable_rows : list ReplyRecord;
  events : list Event;
  stdout : list Line
}.

(** The number of collaborator calls made so far. *)
Definition tick (w : World) : nat := length (events w).

(** The answers of the collaborators.  The [nat] is the [tick] at the time
    of the call.  [data] of a mentions response is [None] when there is no
    mention, [data] of a tweet response is [None] when the tweet cannot be
    shown. *)
Record Env := {
  env_now : nat -> Z;
  env_get_me : nat -> Result Z;
  env_get_users_mentions : nat -> Z -> Z -> Result (option (list Mention));
  env_get_tweet : nat -> Z -> Result (option Tweet);
  env_create_tweet : nat -> string -> Z -> Result string;
  env_llm_invoke : nat -> string -> Result string;
  env_get_all : nat -> option Exn;
  env_insert : nat -> ReplyRecord -> option Exn
}.

(** ** A state and exception monad *)

Definition M (S A : Type) : Type := S -> Result A * S.

Definition ret {S A} (a : A) : M S A := fun s => (Ok a, s).

Definition raise {S A} (e : Exn) : M S A := fun s => (Raised e, s).

Definition bind {S A B} (m : M S A) (k : A -> M S B) : M S B :=
  fun s =>
    match m s with
    | (Ok a, s') => k a s'
    | (Raised e, s') => (Raised e, s')
    end.

(** [try: body except Exception as e: handler e].  What [body] did before it
    raised stays done. *)
Definition try_except {S A} (body : M S A) (handler : Exn -> M S A) : M S A :=
  fun s =>
    match body s with
    | (Ok a, s') => (Ok a, s')
    | (Raised e, s') => handler e s'
    end.

Notation "x <- m ;; k" := (bind m (fun x => k))
  (at level 61, m at next level, right associativity).
Notation "m ;;; k" := (bind m (fun _ => k))
  (at level 61, right associativity).

(** The running program: the instance [self] and the world. *)
Record State := {
  self : TwitterBot;
  world : World
}.

Definition lift {A} (m : M World A) : M State A :=
  fun s =>
    let '(r, w) := m (world s) in
    (r, {| self := self s; world := w |}).

Definition get_self : M State TwitterBot := fun s => (Ok (self s), s).

Definition set_self (b : TwitterBot) : M State unit :=
  fun s => (Ok tt, {| self := b; world := world s |}).

Definition log_call (c : Call) (raised : bool) (w : World) : World :=
  {| airtable_rows := airtable_rows w;
     events := {| ev_call := c; ev_raised := raised |} :: events w;
     stdout := stdout w |}.

Definition print (l : Line) : M World unit :=
  fun w =>
    (Ok tt, {| airtable_rows := airtable_rows w;
               events := events w;
               stdout := l :: stdout w |}).

Section Bot.

Variable env : Env.

Definition utcnow : M World Z := fun w => (Ok (env_now env (tick w)), w).

(** A call that leaves the table alone. *)
Definition extern {A} (c : Call) (answer : nat -> Result A) : M World A :=
  fun w =>
    let r := answer (tick w) in
    (r, log_call c (is_raised r) w).

Definition airtable_get_all : M World (list ReplyRecord) :=
  fun w =>
    match env_get_all env (tick w) with
    | Some e => (Raised e, log_call AirtableGetAll true w)
    | None => (Ok (airtable_rows w), log_call AirtableGetAll false w)
    end.

Definition airtable_insert (row : ReplyRecord) : M World unit :=
  fun w =>
    match env_insert env (tick w) row with
    | Some e => (Raised e, log_call (AirtableInsert row) true w)
    | None =>
        (Ok tt, {| airtable_rows := airtable_rows w ++ [row];
                   events := {| ev_call := AirtableInsert row;
                                ev_raised := false |} :: events w;
                   stdout := stdout w |})
    end.

(** ** The methods of [TwitterBot] *)

(** [str] of a Python [int]. *)
Definition str (n : Z) : string := NilEmpty.string_of_int (Z.to_int n).

(** [self.mentions_replied += 1] *)
Definition incr_mentions_replied : M State unit :=
  b <- get_self ;;
  set_self {| twitter_me_id := twitter_me_id b;
              tweet_response_limit := tweet_response_limit b;
              mentions_found := mentions_found b;
              mentions_replied := mentions_replied b + 1;
              mentions_replied_errors := mentions_replied_errors b |}.

(** [self.mentions_replied_errors += 1] *)
Definition incr_mentions_replied_errors : M State unit :=
  b <- get_self ;;
  set_self {| twitter_me_id := twitter_me_id b;
              tweet_response_limit := tweet_response_limit b;
              mentions_found := mentions_found b;
              mentions_replied := mentions_replied b;
              mentions_replied_errors := mentions_replied_errors b + 1 |}.

(** [self.mentions_found = n] *)
Definition set_mentions_found (n : Z) : M State unit :=
  b <- get_self ;;
  set_self {| twitter_me_id := twitter_me_id b;
              tweet_response_limit := tweet_response_limit b;
              mentions_found := n;
              mentions_replied := mentions_replied b;
              mentions_replied_errors := mentions_replied_errors b |}.

(** The prompt is the fixed persona followed by the text as the human turn,
    so the call is determined by the text. *)
Definition generate_response (mentioned_conversation_tweet_text : string)
  : M State string :=
  lift (extern (LlmInvoke mentioned_conversation_tweet_text)
          (fun t => env_llm_invoke env t mentioned_conversation_tweet_text)).

Definition respond_to_mention (mention : Mention)
    (mentioned_conversation_tweet : Tweet) : M State PyRet :=
  response_text <- generate_response (tweet_text mentioned_conversation_tweet) ;;
  posted <-
    try_except
      (response_tweet <-
         lift (extern (CreateTweet response_text (mention_id mention))
                 (fun t => env_create_tweet env t response_text
                             (mention_id mention))) ;;
       incr_mentions_replied ;;;
       ret (Some response_tweet))
      (fun e =>
         lift (print (LExn e)) ;;;
         incr_mentions_replied_errors ;;;
         ret None) ;;
  match posted with
  | None => ret RNone
  | Some response_tweet =>
      now <- lift utcnow ;;
      lift (airtable_insert
              {| mentioned_conversation_tweet_id :=
                   Some (str (tweet_id mentioned_conversation_tweet));
                 mentioned_conversation_tweet_text :=
                   tweet_text mentioned_conversation_tweet;
                 tweet_response_id := response_tweet;
                 tweet_response_text := response_text;
                 tweet_response_created_at := now;
                 mentioned_at := created_at mention |}) ;;;
      ret RTrue
  end.

(** [self.twitter_api.get_me()[0].id] *)
Definition get_me_id : M World Z := extern GetMe (env_get_me env).

Definition get_mention_conversation_tweet (mention : Mention)
  : M State (option Tweet) :=
  match conversation_id mention with
  | Some c => lift (extern (GetTweet c) (fun t => env_get_tweet env t c))
  | None => ret None
  end.

(** The window is the last 20 minutes, 1200 seconds. *)
Definition get_mentions : M State (option (list Mention)) :=
  b <- get_self ;;
  now <- lift utcnow ;;
  let start_time := now - 1200 in
  lift (extern (GetUsersMentions (twitter_me_id b) start_time)
          (fun t => env_get_users_mentions env t (twitter_me_id b) start_time)).

(** The loop of [check_already_responded] over the rows. *)
Fixpoint scan_records (records : list ReplyRecord) (key : string) : bool :=
  match records with
  | [] => false
  | record :: rest =>
      match mentioned_conversation_tweet_id record with
      | Some k => if String.eqb k key then true else scan_records rest key
      | None => scan_records rest key
      end
  end.

Definition check_already_responded (mentioned_conversation_tweet_id : Z)
  : M State bool :=
  records <- lift airtable_get_all ;;
  ret (scan_records records (str mentioned_conversation_tweet_id)).

(** [l[:n]] *)
Definition slice_to {A} (n : Z) (l : list A) : list A :=
  if 0 <=? n then firstn (Z.to_nat n) l
  else firstn (length l - Z.to_nat (- n)) l.

(** The body of the [for] loop of [respond_to_mentions].  [and] evaluates
    its second operand only when the first is true. *)
Definition loop_body (mention : Mention) : M State unit :=
  mentioned_conversation_tweet <- get_mention_conversation_tweet mention ;;
  match mentioned_conversation_tweet with
  | None => raise AttributeError
  | Some t =>
      if negb (tweet_id t =? mention_id mention) then
        already <- check_already_responded (tweet_id t) ;;
        if negb already then
          respond_to_mention mention t ;;; ret tt
        else ret tt
      else ret tt
  end.

Fixpoint for_each (mentions : list Mention) : M State unit :=
  match mentions with
  | [] => ret tt
  | mention :: rest => loop_body mention ;;; for_each rest
  end.

Definition respond_to_mentions : M State PyRet :=
  mentions <- get_mentions ;;
  match mentions with
  | None | Some [] => lift (print LNoMentions) ;;; ret RNone
  | Some ms =>
      set_mentions_found (Z.of_nat (length ms)) ;;;
      b <- get_self ;;
      for_each (slice_to (tweet_response_limit b) ms) ;;;
      ret RTrue
  end.

Definition execute_replies : M State unit :=
  t0 <- lift utcnow ;;
  lift (print (LStartingJob t0)) ;;;
  respond_to_mentions ;;;
  t1 <- lift utcnow ;;
  b <- get_self ;;
  lift (print (LFinishedJob t1 (mentions_found b) (mentions_replied b)
                 (mentions_replied_errors b))).

(** [TwitterBot()]: the constructor asks for the account's id and sets the
    limit and the counters. *)
Definition TwitterBot_init : M World TwitterBot :=
  me <- get_me_id ;;
  ret {| twitter_me_id := me;
         tweet_response_limit := 35;
         mentions_found := 0;
         mentions_replied := 0;
         mentions_replied_errors := 0 |}.

(** Run a method on an instance; the instance is local to the caller and is
    dropped with it. *)
Definition on_instance {A} (b : TwitterBot) (m : M State A) : M World A :=
  fun w =>
    let '(r, s) := m {| self := b; world := w |} in
    (r, world s).

Definition job : M World unit :=
  t <- utcnow ;;
  print (LJobExecuted t) ;;;
  bot <- TwitterBot_init ;;
  on_instance bot execute_replies.

(** [n] rounds of the main loop in which the job is due.  [run_pending] does
    not catch what a job raises. *)
Fixpoint scheduler (n : nat) : M World unit :=
  match n with
  | O => ret tt
  | S k => job ;;; scheduler k
  end.

End Bot.

(** ** Reading the trace and the table *)

Definition is_post (e : Event) : bool :=
  match ev_call e with CreateTweet _ _ => true | _ => false end.

Definition is_post_ok (e : Event) : bool := is_post e && negb (ev_raised e).

Definition is_post_failed (e : Event) : bool := is_post e && ev_raised e.

Definition is_get_tweet (e : Event) : bool :=
  match ev_call e with GetTweet _ => true | _ => false end.

Definition is_llm (e : Event) : bool :=
  match ev_call e with LlmInvoke _ => true | _ => false end.

Definition is_store (e : Event) : bool :=
  match ev_call e with
  | AirtableGetAll | AirtableInsert _ => true
  | _ => false
  end.

(** How many of the calls made so far satisfy [p]. *)
Fixpoint count_events (p : Event -> bool) (evs : list Event) : Z :=
  match evs with
  | [] => 0
  | e :: rest => (if p e then 1 else 0) + count_events p rest
  end.

Arguments count_events : simpl never.

Definition calls (p : Event -> bool) (s : State) : Z :=
  count_events p (events (world s)).

(** The keys of the rows that have one. *)
Fixpoint record_keys (rows : list ReplyRecord) : list string :=
  match rows with
  | [] => []
  | r :: rest =>
      match mentioned_conversation_tweet_id r with
      | Some k => k :: record_keys rest
      | None => record_keys rest
      end
  end.

(** A row with the key of the tweet [id] is in the table. *)
Definition has_record (id : Z) (rows : list ReplyRecord) : Prop :=
  exists r, In r rows /\ mentioned_conversation_tweet_id r = Some (str id).

(** At most one row for each key. *)
Definition unique_keys (rows : list ReplyRecord) : Prop :=
  NoDup (record_keys rows).

(** The instance as [__init__] leaves it. *)
Definition fresh_bot (me : Z) : TwitterBot :=
  {| twitter_me_id := me;
     tweet_response_limit := 35;
     mentions_found := 0;
     mentions_replied := 0;
     mentions_replied_errors := 0 |}.

(** ** States of a run *)

Section Views.

Variable env : Env.

(** The row that [respond_to_mention] writes. *)
Definition reply_row (mention : Mention) (t : Tweet)
    (response_id response_text : string) (now : Z) : ReplyRecord :=
  {| mentioned_conversation_tweet_id := Some (str (tweet_id t));
     mentioned_conversation_tweet_text := tweet_text t;
     tweet_response_id := response_id;
     tweet_response_text := response_text;
     tweet_response_created_at := now;
     mentioned_at := created_at mention |}.

(** The mention reaches [respond_to_mention] in state [s]: it resolves to
    another tweet [t], through the conversation id [c], and the table, read
    without error, has no row for [t]. *)
Definition eligible (mention : Mention) (c : Z) (t : Tweet) (s : State) : Prop :=
  conversation_id mention = Some c /\
  env_get_tweet env (tick (world s)) c = Ok (Some t) /\
  tweet_id t <> mention_id mention /\
  env_get_all env (S (tick (world s))) = None /\
  scan_records (airtable_rows (world s)) (str (tweet_id t)) = false.

(** The state in which [respond_to_mention] starts for an eligible mention. *)
Definition after_check (c : Z) (s : State) : State :=
  {| self := self s;
     world := log_call AirtableGetAll false
                (log_call (GetTweet c) false (world s)) |}.

(** What [get_mentions] asks and what it is answered in state [s]. *)
Definition mentions_call (s : State) : Call :=
  GetUsersMentions (twitter_me_id (self s))
    (env_now env (tick (world s)) - 1200).

Definition fetch (s : State) : Result (option (list Mention)) :=
  env_get_users_mentions env (tick (world s)) (twitter_me_id (self s))
    (env_now env (tick (world s)) - 1200).

(** The state after [get_mentions]. *)
Definition fetched (s : State) : State :=
  {| self := self s;
     world := log_call (mentions_call s) (is_raised (fetch s)) (world s) |}.

(** The state after [self.mentions_found = n]. *)
Definition with_found (n : Z) (s : State) : State :=
  {| self :=
       {| twitter_me_id := twitter_me_id (self s);
          tweet_response_limit := tweet_response_limit (self s);
          mentions_found := n;
          mentions_replied := mentions_replied (self s);
          mentions_replied_errors := mentions_replied_errors (self s) |};
     world := world s |}.

(** The state after [print("No mentions found.")]. *)
Definition no_mentions (s : State) : State :=
  {| self := self s;
     world := {| airtable_rows := airtable_rows (world s);
                 events := events (world s);
                 stdout := LNoMentions :: stdout (world s) |} |}.

Definition printed (l : Line) (s : State) : State :=
  {| self := self s;
     world := {| airtable_rows := airtable_rows (world s);
                 events := events (world s);
                 stdout := l :: stdout (world s) |} |}.

(** The last line of [execute_replies]. *)
Definition finished_line (s : State) : Line :=
  LFinishedJob (env_now env (tick (world s))) (mentions_found (self s))
    (mentions_replied (self s)) (mentions_replied_errors (self s)).

(** The state in which a job whose constructor got the id [me] starts
    [execute_replies]. *)
Definition job_start (me : Z) (w : World) : State :=
  {| self := fresh_bot me;
     world := {| airtable_rows := airtable_rows w;
                 events := {| ev_call := GetMe; ev_raised := false |}
                           :: events w;
                 stdout := LJobExecuted (env_now env (tick w)) :: stdout w |} |}.

(** The run started in [s0] has answered for the mentions [earlier], is in
    state [s] and is about to handle [mention], with [rest] to follow. *)
Definition reaches (s0 : State) (earlier : list Mention) (mention : Mention)
    (rest : list Mention) (s : State) : Prop :=
  exists ms,
    fetch s0 = Ok (Some ms) /\
    slice_to (tweet_response_limit (self s0)) ms = earlier ++ mention :: rest /\
    for_each env earlier (with_found (Z.of_nat (length ms)) (fetched s0))
      = (Ok tt, s).

End Views.

(** [Span n s s']: from [s] to [s'] the instance's identity, limit and
    [mentions_found] stay, the two reply counters grow by the numbers of
    posting calls that returned and that raised, at most [n] mentions were
    resolved, answered by the model and posted to, the table only grew, and
    it still has one row for a key if it had. *)
Record Span (n : Z) (s s' : State) : Prop := {
  span_me : twitter_me_id (self s') = twitter_me_id (self s);
  span_limit : tweet_response_limit (self s') = tweet_response_limit (self s);
  span_found : mentions_found (self s') = mentions_found (self s);
  span_replied :
    mentions_replied (self s') - calls is_post_ok s'
    = mentions_replied (self s) - calls is_post_ok s;
  span_errors :
    mentions_replied_errors (self s') - calls is_post_failed s'
    = mentions_replied_errors (self s) - calls is_post_failed s;
  span_post_ok : calls is_post_ok s <= calls is_post_ok s';
  span_post_failed : calls is_post_failed s <= calls is_post_failed s';
  span_posts :
    calls is_post_ok s' + calls is_post_failed s'
    <= calls is_post_ok s + calls is_post_failed s + n;
  span_get_tweet : calls is_get_tweet s' <= calls is_get_tweet s + n;
  span_llm : calls is_llm s' <= calls is_llm s + n;
  span_rows :
    exists added,
      airtable_rows (world s') = airtable_rows (world s) ++ added;
  span_unique :
    unique_keys (airtable_rows (world s)) ->
    unique_keys (airtable_rows (world s'))
}.

(** ** Sample collaborators *)

(** Collaborators whose answers do not change with time: the mentions of the
    window, the tweets by id, the model's answer by text, the result of
    posting by the mention replied to, and whether [insert] fails. *)
Definition scripted (mentions : option (list Mention))
    (tweets : Z -> option Tweet) (llm : string -> Result string)
    (post : Z -> Result string) (insert : option Exn) : Env :=
  {| env_now := fun t => 1700000000 + Z.of_nat t;
     env_get_me := fun _ => Ok 1;
     env_get_users_mentions := fun _ _ _ => Ok mentions;
     env_get_tweet := fun _ c => Ok (tweets c);
     env_create_tweet := fun _ _ to => post to;
     env_llm_invoke := fun _ text => llm text;
     env_get_all := fun _ => None;
     env_insert := fun _ _ => insert |}.

Definition empty_world : World :=
  {| airtable_rows := []; events := []; stdout := [] |}.

(** Every conversation id is the id of a tweet with the text "gm". *)
Definition any_tweet (c : Z) : option Tweet :=
  Some {| tweet_id := c; tweet_text := "gm"%string |}.

Definition m11 : Mention :=
  {| mention_id := 11; conversation_id := Some 5; created_at := 1699999000 |}.
Definition m12 : Mention :=
  {| mention_id := 12; conversation_id := Some 6; created_at := 1699999100 |}.
Definition m13 : Mention :=
  {| mention_id := 13; conversation_id := Some 7; created_at := 1699999200 |}.

(** A mention that starts its own conversation. *)
Definition m_root : Mention :=
  {| mention_id := 7; conversation_id := Some 7; created_at := 1699999300 |}.

(** A mention without conversation id. *)
Definition m_unresolved : Mention :=
  {| mention_id := 10; conversation_id := None; created_at := 1699999400 |}.

(** A row for the tweet 5, as a former run wrote it. *)
Definition row5 : ReplyRecord :=
  {| mentioned_conversation_tweet_id := Some "5"%string;
     mentioned_conversation_tweet_text := "gm"%string;
     tweet_response_id := "90"%string;
     tweet_response_text := "wagmi"%string;
     tweet_response_created_at := 1699990000;
     mentioned_at := 1699989000 |}.

Definition start (w : World) : State := {| self := fresh_bot 1; world := w |}.

(** An instance that has been through a run: 4 found, 2 replied, 1 error. *)
Definition used_bot : TwitterBot :=
  {| twitter_me_id := 1;
     tweet_response_limit := 35;
     mentions_found := 4;
     mentions_replied := 2;
     mentions_replied_errors := 1 |}.

(** Fifty mentions, each in a conversation of its own. *)
Definition fifty : list Mention :=
  map (fun k => {| mention_id := 100 + Z.of_nat k;
                   conversation_id := Some (Z.of_nat k);
                   created_at := 1699999000 + Z.of_nat k |})
      (seq 1 50).

(** Three mentions; posting the reply to the second one raises. *)
Definition env_post_fails : Env :=
  scripted (Some [m11; m12; m13]) any_tweet (fun _ => Ok "soon"%string)
    (fun to => if to =? 12 then Raised (TwitterError "403"%string)
               else Ok "99"%string)
    None.

(** Three mentions; the model raises on the text of the second conversation. *)
Definition env_llm_fails : Env :=
  scripted (Some [m11; m12; m13])
    (fun c => Some {| tweet_id := c;
                      tweet_text := if c =? 6 then "wen"%string
                                    else "gm"%string |})
    (fun text => if String.eqb text "wen" then Raised (LlmError "503"%string)
                 else Ok "soon"%string)
    (fun _ => Ok "99"%string) None.

(** Three mentions; the table refuses every row. *)
Definition env_insert_fails : Env :=
  scripted (Some [m11; m12; m13]) any_tweet (fun _ => Ok "soon"%string)
    (fun _ => Ok "99"%string) (Some (AirtableError "422"%string)).

(** The state in which the second of the three mentions is reached. *)
Definition before_second (env : Env) : State :=
  snd (for_each env [m11] (with_found 3 (fetched env (start empty_world)))).

(** A posting call in reply to the mention is in the trace. *)
Definition posted_for (mention : Mention) (s : State) : Prop :=
  exists text raised,
    In {| ev_call := CreateTweet text (mention_id mention);
          ev_raised := raised |} (events (world s)).

(** The model was called. *)
Definition generated (s : State) : Prop :=
  exists text raised,
    In {| ev_call := LlmInvoke text; ev_raised := raised |} (events (world s)).

(** A second mention in the conversation 5. *)
Definition m14 : Mention :=
  {| mention_id := 14; conversation_id := Some 5; created_at := 1699999500 |}.

(** Collaborators that answer, but for [get_me], which raises. *)
Definition env_no_me : Env :=
  {| env_now := fun t => 1700000000 + Z.of_nat t;
     env_get_me := fun _ => Raised (TwitterError "401"%string);
     env_get_users_mentions := fun _ _ _ => Ok (Some [m11]);
     env_get_tweet := fun _ c => Ok (any_tweet c);
     env_create_tweet := fun _ _ _ => Ok "99"%string;
     env_llm_invoke := fun _ _ => Ok "soon"%string;
     env_get_all := fun _ => None;
     env_insert := fun _ _ => None |}.

(** Collaborators that answer, but for [get_users_mentions], which raises. *)
Definition env_no_fetch : Env :=
  {| env_now := fun t => 1700000000 + Z.of_nat t;
     env_get_me := fun _ => Ok 1;
     env_get_users_mentions := fun _ _ _ => Raised (TwitterError "429"%string);
     env_get_tweet := fun _ c => Ok (any_tweet c);
     env_create_tweet := fun _ _ _ => Ok "99"%string;
     env_llm_invoke := fun _ _ => Ok "soon"%string;
     env_get_all := fun _ => None;
     env_insert := fun _ _ => None |}.

(** ** The order of the calls *)

Definition is_insert (e : Event) : bool :=
  match ev_call e with AirtableInsert _ => true | _ => false end.

Definition is_insert_ok (e : Event) : bool := is_insert e && negb (ev_raised e).

Definition is_llm_ok (e : Event) : bool := is_llm e && negb (ev_raised e).

Definition is_get_all (e : Event) : bool :=
  match ev_call e with AirtableGetAll => true | _ => false end.

Definition is_get_all_ok (e : Event) : bool :=
  is_get_all e && negb (ev_raised e).

Definition is_get_tweet_ok (e : Event) : bool :=
  is_get_tweet e && negb (ev_raised e).

(** The calls of the world [w] that satisfy [p]. *)
Definition made (p : Event -> bool) (w : World) : Z :=
  count_events p (events w).

(** [Trail k w w']: from [w] to [w'] at most [k] calls were made and none was
    forgotten; the table gained one row for each [insert] that returned;
    [insert] was called once for each posting call that returned; posting was
    called once for each answer of the model; the model was called at most
    once for each reading of the table that returned, and the table was read
    at most once for each tweet that was fetched. *)
Record Trail (k : Z) (w w' : World) : Prop := {
  trail_tick_lo : Z.of_nat (tick w) <= Z.of_nat (tick w');
  trail_tick_hi : Z.of_nat (tick w') <= Z.of_nat (tick w) + k;
  trail_rows :
    Z.of_nat (length (airtable_rows w')) - made is_insert_ok w'
    = Z.of_nat (length (airtable_rows w)) - made is_insert_ok w;
  trail_insert_ok : made is_insert_ok w <= made is_insert_ok w';
  trail_insert :
    made is_insert w' - made is_post_ok w'
    = made is_insert w - made is_post_ok w;
  trail_insert_le :
    made is_insert_ok w' - made is_insert w'
    <= made is_insert_ok w - made is_insert w;
  trail_post :
    made is_post w' - made is_llm_ok w' = made is_post w - made is_llm_ok w;
  trail_llm :
    made is_llm w' - made is_get_all_ok w'
    <= made is_llm w - made is_get_all_ok w;
  trail_get_all :
    made is_get_all w' - made is_get_tweet_ok w'
    <= made is_get_all w - made is_get_tweet_ok w;
  trail_llm_le :
    made is_llm_ok w' - made is_llm w' <= made is_llm_ok w - made is_llm w;
  trail_get_all_le :
    made is_get_all_ok w' - made is_get_all w'
    <= made is_get_all_ok w - made is_get_all w;
  trail_kept :
    exists added, airtable_rows w' = airtable_rows w ++ added
}.

(** ** The lines of a run *)

Definition is_starting (l : Line) : bool :=
  match l with LStartingJob _ => true | _ => false end.

Definition is_finished (l : Line) : bool :=
  match l with LFinishedJob _ _ _ _ => true | _ => false end.

Definition is_exn_line (l : Line) : bool :=
  match l with LExn _ => true | _ => false end.

(** How many of the lines printed so far satisfy [p]. *)
Fixpoint count_lines (p : Line -> bool) (ls : list Line) : Z :=
  match ls with
  | [] => 0
  | l :: rest => (if p l then 1 else 0) + count_lines p rest
  end.

Arguments count_lines : simpl never.

Definition lines (p : Line -> bool) (s : State) : Z :=
  count_lines p (stdout (world s)).

(** [Quiet s s']: from [s] to [s'] no line that starts or ends a job was
    printed, and one exception was printed for each error counted. *)
Record Quiet (s s' : State) : Prop := {
  quiet_starting : lines is_starting s' = lines is_starting s;
  quiet_finished : lines is_finished s' = lines is_finished s;
  quiet_exn :
    mentions_replied_errors (self s') - lines is_exn_line s'
    = mentions_replied_errors (self s) - lines is_exn_line s
}.

(** ** Collaborators that answer *)

(** Every collaborator but the posting call always answers: [get_me], the
    fetch, [get_tweet], the model, and the reading and writing of the table
    never raise, every fetched mention has a conversation id, and every
    conversation tweet can be shown.  Nothing is said of [create_tweet]. *)
Record dependable (env : Env) : Prop := {
  dep_me : forall t, exists me, env_get_me env t = Ok me;
  dep_mentions :
    forall t user start_time,
    exists answer,
      env_get_users_mentions env t user start_time = Ok answer /\
      forall ms m,
        answer = Some ms -> In m ms -> conversation_id m <> None;
  dep_tweet : forall t c, exists tw, env_get_tweet env t c = Ok (Some tw);
  dep_llm : forall t text, exists answer, env_llm_invoke env t text = Ok answer;
  dep_get_all : forall t, env_get_all env t = None;
  dep_insert : forall t row, env_insert env t row = None
}.

(** * Properties *)

(** The scenario of the specification: one mention 10 in the conversation 5,
    an empty table, the model and the posting call answer.  The job reports
    one mention found, one reply and no error, and the table has the one row
    with the key "5" and the reply's id "99". *)
Example end_to_end_scenario :
  let env :=
    scripted
      (Some [ {| mention_id := 10; conversation_id := Some 5;
                 created_at := 1699999000 |} ])
      (fun c => Some {| tweet_id := c;
                        tweet_text := "DAOs are overrated"%string |})
      (fun _ => Ok "Decentralization is the endgame."%string)
      (fun _ => Ok "99"%string) None in
  fst (job env empty_world) = Ok tt /\
  hd_error (stdout (snd (job env empty_world)))
    = Some (LFinishedJob 1700000007 1 1 0) /\
  airtable_rows (snd (job env empty_world)) =
    [ {| mentioned_conversation_tweet_id := Some "5"%string;
         mentioned_conversation_tweet_text := "DAOs are overrated"%string;
         tweet_response_id := "99"%string;
         tweet_response_text := "Decentralization is the endgame."%string;
         tweet_response_created_at := 1700000006;
         mentioned_at := 1699999000 |} ].
Proof.
  cbv zeta. repeat split; vm_compute; reflexivity.
Qed.

Lemma count_events_cons (p : Event -> bool) (e : Event) (evs : list Event) :
  count_events p (e :: evs) = (if p e then 1 else 0) + count_events p evs.
Proof. reflexivity. Qed.

(** ** The table *)

Lemma scan_records_In (rows : list ReplyRecord) (key : string) :
  scan_records rows key = true <-> In key (record_keys rows).
Proof.
  induction rows as [|r rows IH]; simpl.
  - split; [discriminate | tauto].
  - destruct (mentioned_conversation_tweet_id r) as [k|]; [|exact IH].
    destruct (String.eqb_spec k key) as [->|Hne]; simpl.
    + split; auto.
    + rewrite IH. split; [auto | intros [E|E]; [contradiction | exact E]].
Qed.

Lemma record_keys_In (rows : list ReplyRecord) (key : string) :
  In key (record_keys rows) <->
  exists r, In r rows /\ mentioned_conversation_tweet_id r = Some key.
Proof.
  induction rows as [|r rows IH]; simpl.
  - split; [tauto | intros (r & [] & _)].
  - destruct (mentioned_conversation_tweet_id r) as [k|] eqn:Hk; simpl;
      rewrite IH; split.
    + intros [->|(r' & Hin & Hr')]; [exists r; auto | exists r'; auto].
    + intros (r' & [->|Hin] & Hr');
        [left; congruence | right; exists r'; auto].
    + intros (r' & Hin & Hr'); exists r'; auto.
    + intros (r' & [->|Hin] & Hr'); [congruence | exists r'; auto].
Qed.

Lemma scan_records_has_record (rows : list ReplyRecord) (id : Z) :
  scan_records rows (str id) = true <-> has_record id rows.
Proof.
  rewrite scan_records_In. apply record_keys_In.
Qed.

Lemma record_keys_app (l1 l2 : list ReplyRecord) :
  record_keys (l1 ++ l2) = record_keys l1 ++ record_keys l2.
Proof.
  induction l1 as [|r l1 IH]; simpl; [reflexivity|].
  destruct (mentioned_conversation_tweet_id r); simpl; now rewrite IH.
Qed.

Lemma unique_keys_insert (rows : list ReplyRecord) (row : ReplyRecord) (key : string) :
  mentioned_conversation_tweet_id row = Some key ->
  scan_records rows key = false ->
  unique_keys rows ->
  unique_keys (rows ++ [row]).
Proof.
  unfold unique_keys. intros Hk Hscan Hnd.
  rewrite record_keys_app. simpl. rewrite Hk.
  assert (Hnot : ~ In key (record_keys rows)).
  { rewrite <- scan_records_In. now rewrite Hscan. }
  clear Hscan Hk.
  induction (record_keys rows) as [|k ks IH]; simpl.
  - constructor; [tauto | constructor].
  - inversion Hnd; subst. constructor.
    + rewrite in_app_iff. simpl. intros [Hin|[->|[]]]; [tauto|].
      apply Hnot. now left.
    + apply IH; [assumption | intros Hin; apply Hnot; now right].
Qed.

(** ** One mention *)

Ltac unfold_bot :=
  unfold loop_body, respond_to_mention, check_already_responded,
    get_mention_conversation_tweet, generate_response,
    incr_mentions_replied, incr_mentions_replied_errors, set_mentions_found,
    try_except, bind, ret, raise, lift, extern, airtable_get_all,
    airtable_insert, utcnow, get_self, set_self, print, tick; simpl.

Ltac count_calls :=
  unfold calls, log_call; cbn [events world self];
  rewrite ?count_events_cons;
  cbn [is_post_ok is_post_failed is_post is_get_tweet is_llm is_store
       ev_call ev_raised andb negb
       twitter_me_id tweet_response_limit mentions_found mentions_replied
       mentions_replied_errors airtable_rows].

Section OneMention.

Variable env : Env.

Lemma generate_response_raises (text : string) (s : State) (e : Exn) :
  env_llm_invoke env (tick (world s)) text = Raised e ->
  generate_response env text s =
    (Raised e,
     {| self := self s; world := log_call (LlmInvoke text) true (world s) |}).
Proof.
  intros H. unfold_bot. unfold tick in H. now rewrite H.
Qed.

Lemma respond_to_mention_llm_raises (mention : Mention) (t : Tweet)
    (s : State) (e : Exn) :
  env_llm_invoke env (tick (world s)) (tweet_text t) = Raised e ->
  respond_to_mention env mention t s =
    (Raised e,
     {| self := self s;
        world := log_call (LlmInvoke (tweet_text t)) true (world s) |}).
Proof.
  intros H. unfold_bot. unfold tick in H. now rewrite H.
Qed.

Lemma respond_to_mention_post_raises (mention : Mention) (t : Tweet)
    (s : State) (text : string) (e : Exn) :
  env_llm_invoke env (tick (world s)) (tweet_text t) = Ok text ->
  env_create_tweet env (S (tick (world s))) text (mention_id mention) = Raised e ->
  respond_to_mention env mention t s =
    (Ok RNone,
     {| self :=
          {| twitter_me_id := twitter_me_id (self s);
             tweet_response_limit := tweet_response_limit (self s);
             mentions_found := mentions_found (self s);
             mentions_replied := mentions_replied (self s);
             mentions_replied_errors := mentions_replied_errors (self s) + 1 |};
        world :=
          {| airtable_rows := airtable_rows (world s);
             events :=
               {| ev_call := CreateTweet text (mention_id mention);
                  ev_raised := true |}
               :: {| ev_call := LlmInvoke (tweet_text t); ev_raised := false |}
               :: events (world s);
             stdout := LExn e :: stdout (world s) |} |}).
Proof.
  intros H1 H2. unfold_bot. unfold tick in H1, H2.
  rewrite H1. simpl. rewrite H2. reflexivity.
Qed.

Lemma respond_to_mention_insert_raises (mention : Mention) (t : Tweet)
    (s : State) (text rid : string) (e : Exn) :
  env_llm_invoke env (tick (world s)) (tweet_text t) = Ok text ->
  env_create_tweet env (S (tick (world s))) text (mention_id mention) = Ok rid ->
  env_insert env (S (S (tick (world s))))
    (reply_row mention t rid text (env_now env (S (S (tick (world s))))))
    = Some e ->
  respond_to_mention env mention t s =
    (Raised e,
     {| self :=
          {| twitter_me_id := twitter_me_id (self s);
             tweet_response_limit := tweet_response_limit (self s);
             mentions_found := mentions_found (self s);
             mentions_replied := mentions_replied (self s) + 1;
             mentions_replied_errors := mentions_replied_errors (self s) |};
        world :=
          {| airtable_rows := airtable_rows (world s);
             events :=
               {| ev_call :=
                    AirtableInsert
                      (reply_row mention t rid text
                         (env_now env (S (S (tick (world s))))));
                  ev_raised := true |}
               :: {| ev_call := CreateTweet text (mention_id mention);
                     ev_raised := false |}
               :: {| ev_call := LlmInvoke (tweet_text t); ev_raised := false |}
               :: events (world s);
             stdout := stdout (world s) |} |}).
Proof.
  intros H1 H2 H3. unfold_bot. unfold tick, reply_row in H1, H2, H3.
  rewrite H1. simpl. rewrite H2. simpl. rewrite H3. reflexivity.
Qed.

Lemma respond_to_mention_ok (mention : Mention) (t : Tweet)
    (s : State) (text rid : string) :
  env_llm_invoke env (tick (world s)) (tweet_text t) = Ok text ->
  env_create_tweet env (S (tick (world s))) text (mention_id mention) = Ok rid ->
  env_insert env (S (S (tick (world s))))
    (reply_row mention t rid text (env_now env (S (S (tick (world s))))))
    = None ->
  respond_to_mention env mention t s =
    (Ok RTrue,
     {| self :=
          {| twitter_me_id := twitter_me_id (self s);
             tweet_response_limit := tweet_response_limit (self s);
             mentions_found := mentions_found (self s);
             mentions_replied := mentions_replied (self s) + 1;
             mentions_replied_errors := mentions_replied_errors (self s) |};
        world :=
          {| airtable_rows :=
               airtable_rows (world s)
               ++ [reply_row mention t rid text
                     (env_now env (S (S (tick (world s)))))];
             events :=
               {| ev_call :=
                    AirtableInsert
                      (reply_row mention t rid text
                         (env_now env (S (S (tick (world s))))));
                  ev_raised := false |}
               :: {| ev_call := CreateTweet text (mention_id mention);
                     ev_raised := false |}
               :: {| ev_call := LlmInvoke (tweet_text t); ev_raised := false |}
               :: events (world s);
             stdout := stdout (world s) |} |}).
Proof.
  intros H1 H2 H3. unfold_bot. unfold tick, reply_row in H1, H2, H3.
  rewrite H1. simpl. rewrite H2. simpl. rewrite H3. reflexivity.
Qed.

Lemma loop_body_eligible (mention : Mention) (c : Z) (t : Tweet) (s : State) :
  eligible env mention c t s ->
  loop_body env mention s =
    (respond_to_mention env mention t ;;; ret tt) (after_check c s).
Proof.
  intros (Hc & Ht & Hne & Hall & Hscan).
  apply Z.eqb_neq in Hne. unfold tick in Ht, Hall.
  unfold loop_body, get_mention_conversation_tweet, check_already_responded,
    after_check, bind, ret, lift, extern, airtable_get_all, tick, log_call.
  rewrite Hc, Ht. simpl. rewrite Hne. simpl. rewrite Hall. simpl.
  rewrite Hscan. simpl.
  destruct (respond_to_mention env mention t _) as [[r|e] s']; reflexivity.
Qed.

End OneMention.

(** ** What any part of a run keeps *)

Lemma Span_refl (s : State) : Span 0 s s.
Proof.
  constructor; try reflexivity; try lia; try tauto.
  exists []. now rewrite app_nil_r.
Qed.

Lemma Span_trans (n m : Z) (s1 s2 s3 : State) :
  Span n s1 s2 -> Span m s2 s3 -> Span (n + m) s1 s3.
Proof.
  intros [] []. constructor; try congruence; try lia; try tauto.
  destruct span_rows0 as [a1 E1], span_rows1 as [a2 E2].
  exists (a1 ++ a2). now rewrite E2, E1, app_assoc.
Qed.

Lemma Span_weaken (n m : Z) (s s' : State) :
  n <= m -> Span n s s' -> Span m s s'.
Proof.
  intros Hle []. constructor; try assumption; lia.
Qed.

Section Accounting.

Variable env : Env.

Ltac split_matches :=
  repeat match goal with
    | |- context [match ?x with _ => _ end] =>
        lazymatch x with
        | context [match _ with _ => _ end] => fail
        | _ => destruct x eqn:?; simpl
        end
    end.

Lemma loop_body_Span (mention : Mention) (s : State) :
  Span 1 s (snd (loop_body env mention s)).
Proof.
  unfold_bot. split_matches;
    (constructor; count_calls;
     try reflexivity; try lia; try tauto;
     try (exists []; now rewrite app_nil_r);
     try (eexists; reflexivity)).
  intros Hu. eapply unique_keys_insert; [reflexivity | | exact Hu].
  now apply negb_true_iff.
Qed.

Lemma for_each_Span (mentions : list Mention) (s : State) :
  Span (Z.of_nat (length mentions)) s (snd (for_each env mentions s)).
Proof.
  revert s. induction mentions as [|m rest IH]; intros s.
  - apply Span_refl.
  - cbn [for_each length]. unfold bind.
    pose proof (loop_body_Span m s) as H1.
    rewrite Nat2Z.inj_succ.
    destruct (loop_body env m s) as [[[]|e] s1]; cbn [snd] in H1 |- *.
    + replace (Z.succ (Z.of_nat (length rest)))
        with (1 + Z.of_nat (length rest)) by lia.
      eapply Span_trans; [exact H1 | apply IH].
    + eapply Span_weaken; [|exact H1]. lia.
Qed.

End Accounting.

(** ** A run *)

Lemma snd_then_ret {S A B} (m : M S A) (b : B) (s : S) :
  snd ((m ;;; ret b) s) = snd (m s).
Proof.
  unfold bind, ret. destruct (m s) as [[a|e] s']; reflexivity.
Qed.

Section Run.

Variable env : Env.

Lemma get_mentions_eq (s : State) :
  get_mentions env s = (fetch env s, fetched env s).
Proof. reflexivity. Qed.

Lemma respond_to_mentions_eq (s : State) :
  respond_to_mentions env s =
    match fetch env s with
    | Raised e => (Raised e, fetched env s)
    | Ok None | Ok (Some []) => (Ok RNone, no_mentions (fetched env s))
    | Ok (Some ms) =>
        (for_each env (slice_to (tweet_response_limit (self s)) ms) ;;;
         ret RTrue)
          (with_found (Z.of_nat (length ms)) (fetched env s))
    end.
Proof.
  unfold respond_to_mentions. unfold bind at 1. rewrite get_mentions_eq.
  destruct (fetch env s) as [[[|m ms]|]|e]; reflexivity.
Qed.

Lemma fetched_Span (s : State) : Span 0 s (fetched env s).
Proof.
  unfold fetched, mentions_call.
  constructor; unfold calls, log_call; cbn [events world self];
    rewrite ?count_events_cons;
    cbn [is_post_ok is_post_failed is_post is_get_tweet is_llm ev_call
         ev_raised andb negb airtable_rows];
    try reflexivity; try lia; try tauto.
  exists []. now rewrite app_nil_r.
Qed.

(** A run adds to the counters it finds: the table and the reply counters
    move as in [Span], and [mentions_found] is overwritten only when at least
    one mention was fetched. *)
Lemma respond_to_mentions_counters (s : State) :
  let s' := snd (respond_to_mentions env s) in
  mentions_replied (self s') - calls is_post_ok s'
    = mentions_replied (self s) - calls is_post_ok s /\
  mentions_replied_errors (self s') - calls is_post_failed s'
    = mentions_replied_errors (self s) - calls is_post_failed s /\
  mentions_found (self s') =
    match fetch env s with
    | Ok (Some (m :: ms)) => Z.of_nat (length (m :: ms))
    | _ => mentions_found (self s)
    end /\
  (unique_keys (airtable_rows (world s)) ->
   unique_keys (airtable_rows (world s'))).
Proof.
  cbv zeta. rewrite respond_to_mentions_eq.
  pose proof (fetched_Span s) as [].
  unfold calls in *.
  destruct (fetch env s) as [[[|m ms]|]|e] eqn:Hf; cbn [snd].
  1, 3, 4:
    unfold no_mentions; cbn [self world events airtable_rows];
    repeat split; try lia; assumption.
  rewrite snd_then_ret.
  set (s1 := with_found _ _).
  pose proof (for_each_Span env
                (slice_to (tweet_response_limit (self s)) (m :: ms)) s1) as [].
  unfold calls in *.
  destruct (snd (for_each env _ s1)) as [b2 w2].
  subst s1. unfold with_found in *.
  cbn [self world mentions_found mentions_replied mentions_replied_errors] in *.
  repeat split; try lia; tauto.
Qed.

End Run.

(** ** A job *)

Section Job.

Variable env : Env.

Lemma execute_replies_eq (s : State) :
  execute_replies env s =
    match
      respond_to_mentions env
        (printed (LStartingJob (env_now env (tick (world s)))) s)
    with
    | (Ok _, s1) => (Ok tt, printed (finished_line env s1) s1)
    | (Raised e, s1) => (Raised e, s1)
    end.
Proof.
  unfold execute_replies, bind, lift, utcnow, print, get_self, printed,
    finished_line.
  cbn [self world].
  destruct (respond_to_mentions env _) as [[r|e] s1]; reflexivity.
Qed.

Lemma TwitterBot_init_eq (w : World) :
  TwitterBot_init env w =
    match env_get_me env (tick w) with
    | Ok me => (Ok (fresh_bot me), log_call GetMe false w)
    | Raised e => (Raised e, log_call GetMe true w)
    end.
Proof.
  unfold TwitterBot_init, get_me_id, bind, extern, ret.
  destruct (env_get_me env (tick w)); reflexivity.
Qed.

Lemma job_eq (w : World) :
  job env w =
    match env_get_me env (tick w) with
    | Ok me =>
        let '(r, s) := execute_replies env (job_start env me w) in (r, world s)
    | Raised e =>
        (Raised e,
         {| airtable_rows := airtable_rows w;
            events := {| ev_call := GetMe; ev_raised := true |} :: events w;
            stdout := LJobExecuted (env_now env (tick w)) :: stdout w |})
    end.
Proof.
  unfold job. unfold bind at 1. unfold utcnow at 1.
  unfold bind at 1. unfold print at 1.
  unfold bind at 1. rewrite TwitterBot_init_eq. unfold tick. cbn [events].
  destruct (env_get_me env (length (events w))); reflexivity.
Qed.

Lemma execute_replies_unique (s : State) :
  unique_keys (airtable_rows (world s)) ->
  unique_keys (airtable_rows (world (snd (execute_replies env s)))).
Proof.
  intros Hu. rewrite execute_replies_eq.
  set (s0 := printed _ s).
  pose proof (respond_to_mentions_counters env s0) as (_ & _ & _ & H).
  cbv zeta in H. specialize (H Hu).
  destruct (respond_to_mentions env s0) as [[r|e] s1]; exact H.
Qed.

Lemma job_unique (w : World) :
  unique_keys (airtable_rows w) ->
  unique_keys (airtable_rows (snd (job env w))).
Proof.
  intros Hu. rewrite job_eq.
  destruct (env_get_me env (tick w)) as [me|e]; [|exact Hu].
  pose proof (execute_replies_unique (job_start env me w) Hu) as H.
  destruct (execute_replies env (job_start env me w)) as [r s]. exact H.
Qed.

Lemma scheduler_unique (n : nat) (w : World) :
  unique_keys (airtable_rows w) ->
  unique_keys (airtable_rows (snd (scheduler env n w))).
Proof.
  revert w. induction n as [|n IH]; intros w Hu; [exact Hu|].
  cbn [scheduler]. unfold bind.
  pose proof (job_unique w Hu) as H.
  destruct (job env w) as [[[]|e] w1]; cbn [snd] in H |- *.
  - now apply IH.
  - exact H.
Qed.

End Job.

(** ** Reaching a mention in a run *)

Section Reach.

Variable env : Env.

Lemma for_each_app (l1 l2 : list Mention) (s : State) :
  for_each env (l1 ++ l2) s = (for_each env l1 ;;; for_each env l2) s.
Proof.
  revert s. induction l1 as [|m l1 IH]; intros s; [reflexivity|].
  cbn [app for_each]. unfold bind in *.
  destruct (loop_body env m s) as [[[]|e] s1]; [apply IH | reflexivity].
Qed.

Lemma slice_to_nil {A} (n : Z) : slice_to n (@nil A) = [].
Proof.
  unfold slice_to. destruct (0 <=? n); apply firstn_nil.
Qed.

Lemma respond_to_mentions_reaches (s0 : State) (earlier : list Mention)
    (mention : Mention) (rest : list Mention) (s : State) :
  reaches env s0 earlier mention rest s ->
  respond_to_mentions env s0 =
    (loop_body env mention ;;; for_each env rest ;;; ret RTrue) s.
Proof.
  intros (ms & Hf & Hslice & Hpre).
  rewrite respond_to_mentions_eq, Hf.
  destruct ms as [|m0 ms'].
  - rewrite slice_to_nil in Hslice. now destruct earlier.
  - rewrite Hslice. unfold bind at 1. rewrite for_each_app.
    unfold bind at 1. rewrite Hpre. cbn [for_each].
    unfold bind.
    destruct (loop_body env mention s) as [[[]|e] s1]; reflexivity.
Qed.

End Reach.

(** ** A mention that is its own conversation *)

(** C1, as the claim states it, fails: the only mention of the run resolves
    to the tweet with its own id, the table is empty and every collaborator
    answers, and still no reply is generated or posted for it and
    [mentions_replied] stays 0. *)
Lemma root_mention_gets_no_reply :
  let env := scripted (Some [m_root]) any_tweet
               (fun _ => Ok "soon"%string) (fun _ => Ok "99"%string) None in
  let s' := snd (respond_to_mentions env (start empty_world)) in
  env_get_tweet env 1 7 = Ok (Some {| tweet_id := mention_id m_root;
                                      tweet_text := "gm"%string |}) /\
  fst (respond_to_mentions env (start empty_world)) = Ok RTrue /\
  ~ generated s' /\
  ~ posted_for m_root s' /\
  mentions_replied (self s') = 0 /\
  airtable_rows (world s') = [].
Proof.
  cbv zeta. repeat split; try reflexivity.
  - intros (text & raised & H). vm_compute in H.
    destruct H as [H|[H|[]]]; discriminate.
  - intros (text & raised & H). vm_compute in H.
    destruct H as [H|[H|[]]]; discriminate.
Qed.

(** C1, amended: a mention whose resolved conversation tweet has the
    mention's own id is skipped, whatever the table holds: after the tweet was
    fetched nothing else happens, so the table is not read, no reply is
    generated or posted, no row is written and no counter moves, and the loop
    goes on with the next mention. *)
Theorem root_mention_is_skipped (env : Env) (s : State) (mention : Mention)
    (c : Z) (t : Tweet) (rest : list Mention) :
  conversation_id mention = Some c ->
  env_get_tweet env (tick (world s)) c = Ok (Some t) ->
  tweet_id t = mention_id mention ->
  let s' := {| self := self s;
               world := log_call (GetTweet c) false (world s) |} in
  loop_body env mention s = (Ok tt, s') /\
  for_each env (mention :: rest) s = for_each env rest s' /\
  calls is_store s' = calls is_store s /\
  calls is_llm s' = calls is_llm s /\
  calls is_post s' = calls is_post s.
Proof.
  intros Hc Ht Hid. cbv zeta.
  assert (H : loop_body env mention s =
              (Ok tt, {| self := self s;
                         world := log_call (GetTweet c) false (world s) |})).
  { unfold tick in Ht. unfold_bot. rewrite Hc. simpl. rewrite Ht. simpl.
    apply Z.eqb_eq in Hid. rewrite Hid. reflexivity. }
  split; [exact H|]. split.
  - cbn [for_each]. unfold bind. now rewrite H.
  - unfold calls, log_call. cbn [world events].
    rewrite !count_events_cons. cbn. repeat split; lia.
Qed.

Lemma root_mention_is_skipped_witness :
  let env := scripted (Some [m_root; m11]) any_tweet
               (fun _ => Ok "soon"%string) (fun _ => Ok "99"%string) None in
  let s := start {| airtable_rows := [row5]; events := []; stdout := [] |} in
  let s' := {| self := self s; world := log_call (GetTweet 7) false (world s) |} in
  loop_body env m_root s = (Ok tt, s') /\
  for_each env [m_root; m11] s = for_each env [m11] s' /\
  calls is_store s' = calls is_store s /\
  calls is_llm s' = calls is_llm s /\
  calls is_post s' = calls is_post s.
Proof.
  cbv zeta.
  apply (root_mention_is_skipped
           (scripted (Some [m_root; m11]) any_tweet
              (fun _ => Ok "soon"%string) (fun _ => Ok "99"%string) None)
           (start {| airtable_rows := [row5]; events := []; stdout := [] |})
           m_root 7 {| tweet_id := 7; tweet_text := "gm"%string |} [m11]);
    reflexivity.
Defined.

(** ** A conversation that was answered *)

Lemma loop_body_answered (env : Env) (s : State) (mention : Mention)
    (c : Z) (t : Tweet) :
  conversation_id mention = Some c ->
  env_get_tweet env (tick (world s)) c = Ok (Some t) ->
  tweet_id t <> mention_id mention ->
  scan_records (airtable_rows (world s)) (str (tweet_id t)) = true ->
  loop_body env mention s =
    match env_get_all env (S (tick (world s))) with
    | None => (Ok tt, after_check c s)
    | Some e =>
        (Raised e,
         {| self := self s;
            world := log_call AirtableGetAll true
                       (log_call (GetTweet c) false (world s)) |})
    end.
Proof.
  intros Hc Ht Hne Hscan.
  apply Z.eqb_neq in Hne. unfold tick in *.
  unfold loop_body, get_mention_conversation_tweet, check_already_responded,
    after_check, bind, ret, lift, extern, airtable_get_all, tick, log_call.
  rewrite Hc, Ht. simpl. rewrite Hne. simpl.
  destruct (env_get_all env _); [reflexivity|].
  simpl. rewrite Hscan. reflexivity.
Qed.

(** C2: when the table has a row for the tweet a mention resolves to, and the
    tweet is not the mention itself, handling the mention posts nothing,
    calls no model, writes no row and leaves the instance, so
    [mentions_replied], as it was; when the table could be read the loop goes
    on with the next mention.  And a table with at most one row per
    [mentioned_conversation_tweet_id] has at most one row per key after any
    number of scheduled jobs, however they end. *)
Theorem answered_conversation_is_skipped (env : Env) :
  (forall (s : State) (mention : Mention) (c : Z) (t : Tweet),
     conversation_id mention = Some c ->
     env_get_tweet env (tick (world s)) c = Ok (Some t) ->
     tweet_id t <> mention_id mention ->
     has_record (tweet_id t) (airtable_rows (world s)) ->
     let s' := snd (loop_body env mention s) in
     self s' = self s /\
     airtable_rows (world s') = airtable_rows (world s) /\
     calls is_post s' = calls is_post s /\
     calls is_llm s' = calls is_llm s /\
     (env_get_all env (S (tick (world s))) = None ->
      loop_body env mention s = (Ok tt, after_check c s))) /\
  (forall (n : nat) (w : World),
     unique_keys (airtable_rows w) ->
     unique_keys (airtable_rows (snd (scheduler env n w)))).
Proof.
  split; [|apply scheduler_unique].
  intros s mention c t Hc Ht Hne Hrec. cbv zeta.
  apply scan_records_has_record in Hrec.
  rewrite (loop_body_answered env s mention c t Hc Ht Hne Hrec).
  destruct (env_get_all env (S (tick (world s)))) as [e|]; cbn [snd];
    unfold after_check, calls, log_call; cbn [self world events airtable_rows];
    rewrite !count_events_cons; cbn;
    repeat split; try lia; try discriminate.
Qed.

Lemma answered_conversation_is_skipped_witness :
  let env := scripted (Some [m11]) any_tweet
               (fun _ => Ok "soon"%string) (fun _ => Ok "99"%string) None in
  let w := {| airtable_rows := [row5]; events := []; stdout := [] |} in
  loop_body env m11 (start w) = (Ok tt, after_check 5 (start w)) /\
  unique_keys (airtable_rows (snd (scheduler env 2 w))).
Proof.
  cbv zeta.
  pose proof (answered_conversation_is_skipped
                (scripted (Some [m11]) any_tweet
                   (fun _ => Ok "soon"%string) (fun _ => Ok "99"%string) None))
    as [Hstep Hinv].
  split.
  - apply (Hstep (start {| airtable_rows := [row5]; events := [];
                           stdout := [] |})
             m11 5 {| tweet_id := 5; tweet_text := "gm"%string |});
      try reflexivity.
    + simpl. discriminate.
    + exists row5. split; [now left | reflexivity].
  - apply Hinv. unfold unique_keys. simpl.
    constructor; [intros [] | constructor].
Defined.

(** ** A mention that does not resolve *)

Lemma loop_body_unresolved (env : Env) (s : State) (mention : Mention) :
  conversation_id mention = None ->
  loop_body env mention s = (Raised AttributeError, s).
Proof.
  intros Hc. unfold_bot. rewrite Hc. now destruct s.
Qed.

(** C3 at a failing input: the window holds a mention without conversation
    id followed by an ordinary mention, the table is empty and every
    collaborator answers.  [None.id] raises [AttributeError] at the first
    mention; the job ends with that exception, the second mention is never
    looked at, and no line reports the run.  The same happens when the
    conversation id is there and the tweet's [data] is [None].  Alone, the
    second mention is answered. *)
Theorem unresolved_mention_aborts_the_job :
  let env := scripted (Some [m_unresolved; m11]) any_tweet
               (fun _ => Ok "soon"%string) (fun _ => Ok "99"%string) None in
  loop_body env m_unresolved (start empty_world)
    = (Raised AttributeError, start empty_world) /\
  job env empty_world =
    (Raised AttributeError,
     {| airtable_rows := [];
        events := [ {| ev_call := GetUsersMentions 1 1699998801;
                       ev_raised := false |};
                    {| ev_call := GetMe; ev_raised := false |} ];
        stdout := [ LStartingJob 1700000001; LJobExecuted 1700000000 ] |}) /\
  job (scripted (Some [m12; m11])
         (fun c => if c =? 6 then None else any_tweet c)
         (fun _ => Ok "soon"%string) (fun _ => Ok "99"%string) None)
      empty_world =
    (Raised AttributeError,
     {| airtable_rows := [];
        events := [ {| ev_call := GetTweet 6; ev_raised := false |};
                    {| ev_call := GetUsersMentions 1 1699998801;
                       ev_raised := false |};
                    {| ev_call := GetMe; ev_raised := false |} ];
        stdout := [ LStartingJob 1700000001; LJobExecuted 1700000000 ] |}) /\
  job (scripted (Some [m11]) any_tweet
         (fun _ => Ok "soon"%string) (fun _ => Ok "99"%string) None)
      empty_world =
    (Ok tt,
     {| airtable_rows :=
          [ {| mentioned_conversation_tweet_id := Some "5"%string;
               mentioned_conversation_tweet_text := "gm"%string;
               tweet_response_id := "99"%string;
               tweet_response_text := "soon"%string;
               tweet_response_created_at := 1700000006;
               mentioned_at := 1699999000 |} ];
        events :=
          [ {| ev_call :=
                 AirtableInsert
                   {| mentioned_conversation_tweet_id := Some "5"%string;
                      mentioned_conversation_tweet_text := "gm"%string;
                      tweet_response_id := "99"%string;
                      tweet_response_text := "soon"%string;
                      tweet_response_created_at := 1700000006;
                      mentioned_at := 1699999000 |};
               ev_raised := false |};
            {| ev_call := CreateTweet "soon" 11; ev_raised := false |};
            {| ev_call := LlmInvoke "gm"; ev_raised := false |};
            {| ev_call := AirtableGetAll; ev_raised := false |};
            {| ev_call := GetTweet 5; ev_raised := false |};
            {| ev_call := GetUsersMentions 1 1699998801; ev_raised := false |};
            {| ev_call := GetMe; ev_raised := false |} ];
        stdout := [ LFinishedJob 1700000007 1 1 0;
                    LStartingJob 1700000001;
                    LJobExecuted 1700000000 ] |}).
Proof.
  cbv zeta. repeat split; vm_compute; reflexivity.
Qed.

(** ** Failures while answering a mention *)

Section Failures.

Variable env : Env.

(** C4: when the posting call for a mention raises, the handler counts one
    error and nothing else: [mentions_replied] and the table are as before,
    no row is written, and the run goes on with the mentions that remain. *)
Theorem post_failure_is_isolated (s0 s : State) (earlier rest : list Mention)
    (mention : Mention) (c : Z) (t : Tweet) (text : string) (e : Exn) :
  reaches env s0 earlier mention rest s ->
  eligible env mention c t s ->
  env_llm_invoke env (S (S (tick (world s)))) (tweet_text t) = Ok text ->
  env_create_tweet env (S (S (S (tick (world s))))) text (mention_id mention)
    = Raised e ->
  exists s',
    loop_body env mention s = (Ok tt, s') /\
    respond_to_mentions env s0 = (for_each env rest ;;; ret RTrue) s' /\
    mentions_replied_errors (self s') = mentions_replied_errors (self s) + 1 /\
    mentions_replied (self s') = mentions_replied (self s) /\
    mentions_found (self s') = mentions_found (self s) /\
    airtable_rows (world s') = airtable_rows (world s) /\
    events (world s') =
      {| ev_call := CreateTweet text (mention_id mention); ev_raised := true |}
      :: {| ev_call := LlmInvoke (tweet_text t); ev_raised := false |}
      :: {| ev_call := AirtableGetAll; ev_raised := false |}
      :: {| ev_call := GetTweet c; ev_raised := false |}
      :: events (world s).
Proof.
  intros Hreach Hel Hllm Hpost.
  pose proof (loop_body_eligible env mention c t s Hel) as Hbody.
  unfold bind in Hbody.
  rewrite (respond_to_mention_post_raises env mention t (after_check c s)
             text e Hllm Hpost) in Hbody.
  eexists. split; [exact Hbody|]. split.
  - rewrite (respond_to_mentions_reaches env _ _ _ _ _ Hreach).
    unfold bind at 1. rewrite Hbody. reflexivity.
  - repeat split.
Qed.

(** C5: when the model call for a mention raises, the exception leaves
    [generate_response], [respond_to_mention] and the run.  The run ends in
    the state right after the model call: nothing was posted, the counters,
    [mentions_replied_errors] among them, are as before the mention, and the
    mentions that remain are not handled. *)
Theorem llm_failure_propagates (s0 s : State) (earlier rest : list Mention)
    (mention : Mention) (c : Z) (t : Tweet) (e : Exn) :
  reaches env s0 earlier mention rest s ->
  eligible env mention c t s ->
  env_llm_invoke env (S (S (tick (world s)))) (tweet_text t) = Raised e ->
  let s1 := after_check c s in
  let s2 := {| self := self s;
               world := log_call (LlmInvoke (tweet_text t)) true (world s1) |} in
  generate_response env (tweet_text t) s1 = (Raised e, s2) /\
  respond_to_mention env mention t s1 = (Raised e, s2) /\
  loop_body env mention s = (Raised e, s2) /\
  respond_to_mentions env s0 = (Raised e, s2) /\
  mentions_replied_errors (self s2) = mentions_replied_errors (self s) /\
  calls is_post s2 = calls is_post s.
Proof.
  intros Hreach Hel Hllm. cbv zeta.
  pose proof (loop_body_eligible env mention c t s Hel) as Hbody.
  pose proof (respond_to_mention_llm_raises env mention t (after_check c s)
                e Hllm) as Hresp.
  unfold bind in Hbody. rewrite Hresp in Hbody.
  split; [exact (generate_response_raises env _ (after_check c s) e Hllm)|].
  split; [exact Hresp|]. split; [exact Hbody|]. split.
  - rewrite (respond_to_mentions_reaches env _ _ _ _ _ Hreach).
    unfold bind at 1. rewrite Hbody. reflexivity.
  - split; [reflexivity|].
    unfold calls, after_check, log_call. cbn [world events].
    rewrite !count_events_cons. reflexivity.
Qed.

(** C9: the row is written after the [try] statement.  When posting returns
    and [insert] raises, that exception ends the run; [mentions_replied] was
    incremented, [mentions_replied_errors] was not, the table is as before
    and still has no row for the conversation, which a later run therefore
    answers again. *)
Theorem insert_failure_after_post (s0 s : State) (earlier rest : list Mention)
    (mention : Mention) (c : Z) (t : Tweet) (text rid : string) (e : Exn) :
  reaches env s0 earlier mention rest s ->
  eligible env mention c t s ->
  env_llm_invoke env (S (S (tick (world s)))) (tweet_text t) = Ok text ->
  env_create_tweet env (S (S (S (tick (world s))))) text (mention_id mention)
    = Ok rid ->
  env_insert env (S (S (S (S (tick (world s))))))
    (reply_row mention t rid text (env_now env (S (S (S (S (tick (world s))))))))
    = Some e ->
  exists s',
    respond_to_mention env mention t (after_check c s) = (Raised e, s') /\
    respond_to_mentions env s0 = (Raised e, s') /\
    mentions_replied (self s') = mentions_replied (self s) + 1 /\
    mentions_replied_errors (self s') = mentions_replied_errors (self s) /\
    airtable_rows (world s') = airtable_rows (world s) /\
    scan_records (airtable_rows (world s')) (str (tweet_id t)) = false /\
    calls is_post_ok s' = calls is_post_ok s + 1.
Proof.
  intros Hreach Hel Hllm Hpost Hins.
  pose proof (loop_body_eligible env mention c t s Hel) as Hbody.
  pose proof (respond_to_mention_insert_raises env mention t (after_check c s)
                text rid e Hllm Hpost Hins) as Hresp.
  unfold bind in Hbody. rewrite Hresp in Hbody.
  eexists. split; [exact Hresp|]. split.
  - rewrite (respond_to_mentions_reaches env _ _ _ _ _ Hreach).
    unfold bind at 1. rewrite Hbody. reflexivity.
  - destruct Hel as (_ & _ & _ & _ & Hscan).
    cbn [self world airtable_rows mentions_replied mentions_replied_errors].
    repeat split; try exact Hscan.
    unfold after_check. count_calls. lia.
Qed.

End Failures.

Lemma reaches_second (env : Env) :
  fetch env (start empty_world) = Ok (Some [m11; m12; m13]) ->
  fst (for_each env [m11] (with_found 3 (fetched env (start empty_world))))
    = Ok tt ->
  reaches env (start empty_world) [m11] m12 [m13] (before_second env).
Proof.
  intros Hf Hok. exists [m11; m12; m13]. split; [exact Hf|].
  split; [reflexivity|].
  unfold before_second. cbn [length Z.of_nat Pos.of_succ_nat Pos.succ].
  destruct (for_each env [m11] _) as [r s]. cbn [fst snd] in *. now subst r.
Qed.

Lemma post_failure_is_isolated_witness :
  let s := before_second env_post_fails in
  exists s',
    loop_body env_post_fails m12 s = (Ok tt, s') /\
    respond_to_mentions env_post_fails (start empty_world)
      = (for_each env_post_fails [m13] ;;; ret RTrue) s' /\
    mentions_replied_errors (self s') = mentions_replied_errors (self s) + 1 /\
    mentions_replied (self s') = mentions_replied (self s) /\
    mentions_found (self s') = mentions_found (self s) /\
    airtable_rows (world s') = airtable_rows (world s) /\
    events (world s') =
      {| ev_call := CreateTweet "soon" (mention_id m12); ev_raised := true |}
      :: {| ev_call := LlmInvoke "gm"; ev_raised := false |}
      :: {| ev_call := AirtableGetAll; ev_raised := false |}
      :: {| ev_call := GetTweet 6; ev_raised := false |}
      :: events (world s).
Proof.
  cbv zeta.
  apply (post_failure_is_isolated env_post_fails (start empty_world)
           (before_second env_post_fails) [m11] [m13] m12 6
           {| tweet_id := 6; tweet_text := "gm"%string |} "soon"%string
           (TwitterError "403"%string)).
  - apply reaches_second; reflexivity.
  - repeat split; try reflexivity. simpl. discriminate.
  - reflexivity.
  - reflexivity.
Defined.

Lemma llm_failure_propagates_witness :
  let env := env_llm_fails in
  let s := before_second env in
  let s1 := after_check 6 s in
  let s2 := {| self := self s;
               world := log_call (LlmInvoke "wen") true (world s1) |} in
  generate_response env "wen" s1 = (Raised (LlmError "503"), s2) /\
  respond_to_mention env m12 {| tweet_id := 6; tweet_text := "wen" |} s1
    = (Raised (LlmError "503"), s2) /\
  loop_body env m12 s = (Raised (LlmError "503"), s2) /\
  respond_to_mentions env (start empty_world) = (Raised (LlmError "503"), s2) /\
  mentions_replied_errors (self s2) = mentions_replied_errors (self s) /\
  calls is_post s2 = calls is_post s.
Proof.
  cbv zeta.
  apply (llm_failure_propagates env_llm_fails (start empty_world)
           (before_second env_llm_fails) [m11] [m13] m12 6
           {| tweet_id := 6; tweet_text := "wen"%string |}
           (LlmError "503"%string)).
  - apply reaches_second; reflexivity.
  - repeat split; try reflexivity. simpl. discriminate.
  - reflexivity.
Defined.

Lemma insert_failure_after_post_witness :
  let env := env_insert_fails in
  let s := with_found 3 (fetched env (start empty_world)) in
  exists s',
    respond_to_mention env m11 {| tweet_id := 5; tweet_text := "gm" |}
      (after_check 5 s) = (Raised (AirtableError "422"), s') /\
    respond_to_mentions env (start empty_world)
      = (Raised (AirtableError "422"), s') /\
    mentions_replied (self s') = mentions_replied (self s) + 1 /\
    mentions_replied_errors (self s') = mentions_replied_errors (self s) /\
    airtable_rows (world s') = airtable_rows (world s) /\
    scan_records (airtable_rows (world s')) (str 5) = false /\
    calls is_post_ok s' = calls is_post_ok s + 1.
Proof.
  cbv zeta.
  apply (insert_failure_after_post env_insert_fails (start empty_world)
           (with_found 3 (fetched env_insert_fails (start empty_world)))
           [] [m12; m13] m11 5
           {| tweet_id := 5; tweet_text := "gm"%string |} "soon"%string
           "99"%string (AirtableError "422"%string)).
  - exists [m11; m12; m13]. repeat split.
  - repeat split; try reflexivity. simpl. discriminate.
  - reflexivity.
  - reflexivity.
  - reflexivity.
Defined.

(** ** The cap and the empty window *)

Lemma count_post_split (evs : list Event) :
  count_events is_post evs
  = count_events is_post_ok evs + count_events is_post_failed evs.
Proof.
  induction evs as [|[c r] evs IH]; [reflexivity|].
  rewrite !count_events_cons, IH.
  unfold is_post_ok, is_post_failed, is_post. cbn [ev_call ev_raised].
  destruct c, r; cbn [andb negb]; lia.
Qed.

Lemma firstn_le_length {A} (n : nat) (l : list A) :
  (length (firstn n l) <= n)%nat.
Proof.
  rewrite length_firstn. apply Nat.le_min_l.
Qed.

(** A run resolves, generates for and posts to no more mentions than the
    slice holds. *)
Lemma respond_to_mentions_calls (env : Env) (s : State) (n : Z) :
  0 <= n ->
  (forall ms : list Mention,
     Z.of_nat (length (slice_to (tweet_response_limit (self s)) ms)) <= n) ->
  let s' := snd (respond_to_mentions env s) in
  calls is_get_tweet s' <= calls is_get_tweet s + n /\
  calls is_llm s' <= calls is_llm s + n /\
  calls is_post s' <= calls is_post s + n.
Proof.
  intros Hn Hcap. cbv zeta. rewrite respond_to_mentions_eq.
  pose proof (fetched_Span env s) as [].
  unfold calls in *. rewrite !count_post_split.
  destruct (fetch env s) as [[[|m ms]|]|e] eqn:Hf; cbn [snd].
  1, 3, 4:
    unfold no_mentions; cbn [self world events airtable_rows];
    repeat split; lia.
  rewrite snd_then_ret.
  set (s1 := with_found _ _).
  pose proof (for_each_Span env
                (slice_to (tweet_response_limit (self s)) (m :: ms)) s1) as [].
  specialize (Hcap (m :: ms)).
  unfold calls in *.
  destruct (snd (for_each env _ s1)) as [b2 w2].
  subst s1. unfold with_found in *. cbn [self world] in *.
  repeat split; lia.
Qed.

(** C6: on the instance as the constructor leaves it, a run in which the
    fetch answers with N mentions sets [mentions_found] to N, and handles the
    first 35 of them, or all when there are fewer, in the order of the answer:
    it resolves at most 35 conversation tweets, calls the model at most 35
    times and posts at most 35 times. *)
Theorem cap_enforcement (env : Env) (me : Z) (w : World)
    (answer : option (list Mention)) :
  let s := {| self := fresh_bot me; world := w |} in
  fetch env s = Ok answer ->
  let ms := match answer with Some l => l | None => [] end in
  let s' := snd (respond_to_mentions env s) in
  mentions_found (self s') = Z.of_nat (length ms) /\
  (ms <> [] ->
   respond_to_mentions env s =
     (for_each env (firstn 35 ms) ;;; ret RTrue)
       (with_found (Z.of_nat (length ms)) (fetched env s))) /\
  (length (firstn 35 ms) <= 35)%nat /\
  ms = firstn 35 ms ++ skipn 35 ms /\
  calls is_get_tweet s' <= calls is_get_tweet s + 35 /\
  calls is_llm s' <= calls is_llm s + 35 /\
  calls is_post s' <= calls is_post s + 35.
Proof.
  cbv zeta. intros Hf.
  split.
  { pose proof (respond_to_mentions_counters env
                  {| self := fresh_bot me; world := w |}) as (_ & _ & H & _).
    cbv zeta in H. rewrite H, Hf.
    destruct answer as [[|m ms]|]; reflexivity. }
  split.
  { intros Hne. rewrite respond_to_mentions_eq, Hf.
    destruct answer as [[|m ms]|]; [contradiction | reflexivity | contradiction]. }
  split; [apply firstn_le_length|].
  split; [symmetry; apply firstn_skipn|].
  apply respond_to_mentions_calls; [lia|].
  intros l. cbn [self fresh_bot tweet_response_limit].
  change (slice_to 35 l) with (firstn 35 l).
  pose proof (firstn_le_length 35 l). lia.
Qed.

Lemma cap_enforcement_witness :
  let env := scripted (Some fifty) any_tweet (fun _ => Ok "soon"%string)
               (fun _ => Ok "99"%string) None in
  let s := start empty_world in
  let s' := snd (respond_to_mentions env s) in
  mentions_found (self s') = 50 /\
  (fifty <> [] ->
   respond_to_mentions env s =
     (for_each env (firstn 35 fifty) ;;; ret RTrue)
       (with_found 50 (fetched env s))) /\
  (length (firstn 35 fifty) <= 35)%nat /\
  fifty = firstn 35 fifty ++ skipn 35 fifty /\
  calls is_get_tweet s' <= calls is_get_tweet s + 35 /\
  calls is_llm s' <= calls is_llm s + 35 /\
  calls is_post s' <= calls is_post s + 35.
Proof.
  cbv zeta.
  apply (cap_enforcement
           (scripted (Some fifty) any_tweet (fun _ => Ok "soon"%string)
              (fun _ => Ok "99"%string) None)
           1 empty_world (Some fifty)).
  reflexivity.
Defined.

(** C7: when the fetch answers with no mention, the run returns at once.  On
    any instance, [respond_to_mentions] returns [None] after the fetch, its
    only call, and a line of output; the instance and the table are as before.
    In a job, whose instance comes from the constructor, the calls are
    [get_me] and the fetch, so neither the table nor the model is called, and
    the line that ends the job reports 0, 0 and 0. *)
Theorem empty_window (env : Env) :
  (forall s : State,
     fetch env s = Ok None \/ fetch env s = Ok (Some []) ->
     respond_to_mentions env s =
       (Ok RNone,
        {| self := self s;
           world := {| airtable_rows := airtable_rows (world s);
                       events := {| ev_call := mentions_call env s;
                                    ev_raised := false |}
                                 :: events (world s);
                       stdout := LNoMentions :: stdout (world s) |} |})) /\
  (forall (w : World) (me : Z),
     env_get_me env (tick w) = Ok me ->
     fetch env (job_start env me w) = Ok None \/
     fetch env (job_start env me w) = Ok (Some []) ->
     job env w =
       (Ok tt,
        {| airtable_rows := airtable_rows w;
           events := {| ev_call := mentions_call env (job_start env me w);
                        ev_raised := false |}
                     :: {| ev_call := GetMe; ev_raised := false |}
                     :: events w;
           stdout := LFinishedJob (env_now env (S (S (tick w)))) 0 0 0
                     :: LNoMentions
                     :: LStartingJob (env_now env (S (tick w)))
                     :: LJobExecuted (env_now env (tick w))
                     :: stdout w |})).
Proof.
  assert (Hrun : forall s : State,
            fetch env s = Ok None \/ fetch env s = Ok (Some []) ->
            respond_to_mentions env s =
              (Ok RNone,
               {| self := self s;
                  world := {| airtable_rows := airtable_rows (world s);
                              events := {| ev_call := mentions_call env s;
                                           ev_raised := false |}
                                        :: events (world s);
                              stdout := LNoMentions :: stdout (world s) |} |})).
  { intros s Hf. rewrite respond_to_mentions_eq.
    unfold no_mentions, fetched.
    destruct Hf as [Hf|Hf]; rewrite Hf; reflexivity. }
  split; [exact Hrun|].
  intros w me Hme Hf.
  rewrite job_eq, Hme, execute_replies_eq.
  set (s0 := printed _ _).
  change (fetch env (job_start env me w)) with (fetch env s0) in Hf.
  rewrite (Hrun s0 Hf). reflexivity.
Qed.

Lemma empty_window_witness :
  let env := scripted None any_tweet (fun _ => Ok "soon"%string)
               (fun _ => Ok "99"%string) None in
  let w := {| airtable_rows := [row5]; events := []; stdout := [] |} in
  respond_to_mentions env {| self := used_bot; world := w |} =
    (Ok RNone,
     {| self := used_bot;
        world := {| airtable_rows := [row5];
                    events := [ {| ev_call := GetUsersMentions 1 1699998800;
                                   ev_raised := false |} ];
                    stdout := [ LNoMentions ] |} |}) /\
  job env w =
    (Ok tt,
     {| airtable_rows := [row5];
        events := [ {| ev_call := GetUsersMentions 1 1699998801;
                       ev_raised := false |};
                    {| ev_call := GetMe; ev_raised := false |} ];
        stdout := [ LFinishedJob 1700000002 0 0 0;
                    LNoMentions;
                    LStartingJob 1700000001;
                    LJobExecuted 1700000000 ] |}).
Proof.
  cbv zeta.
  pose proof (empty_window
                (scripted None any_tweet (fun _ => Ok "soon"%string)
                   (fun _ => Ok "99"%string) None)) as [Hrun Hjob].
  split.
  - apply (Hrun {| self := used_bot;
                   world := {| airtable_rows := [row5]; events := [];
                               stdout := [] |} |}).
    left. reflexivity.
  - apply (Hjob {| airtable_rows := [row5]; events := []; stdout := [] |} 1).
    + reflexivity.
    + left. reflexivity.
Defined.

(** ** The counters *)

Section Counters.

Variable env : Env.

(** [execute_replies] moves the counters as the run inside it does, and when
    it returns its last line shows the counters of the instance. *)
Lemma execute_replies_counters (s : State) :
  let s' := snd (execute_replies env s) in
  mentions_replied (self s') - calls is_post_ok s'
    = mentions_replied (self s) - calls is_post_ok s /\
  mentions_replied_errors (self s') - calls is_post_failed s'
    = mentions_replied_errors (self s) - calls is_post_failed s /\
  mentions_found (self s') =
    match fetch env s with
    | Ok (Some (m :: ms)) => Z.of_nat (length (m :: ms))
    | _ => mentions_found (self s)
    end /\
  (fst (execute_replies env s) = Ok tt ->
   hd_error (stdout (world s')) = Some (finished_line env s')).
Proof.
  cbv zeta. rewrite execute_replies_eq.
  set (s0 := printed _ s).
  pose proof (respond_to_mentions_counters env s0) as (H1 & H2 & H3 & _).
  cbv zeta in H1, H2, H3.
  change (fetch env s0) with (fetch env s) in H3.
  change (calls is_post_ok s0) with (calls is_post_ok s) in H1.
  change (calls is_post_failed s0) with (calls is_post_failed s) in H2.
  change (self s0) with (self s) in H1, H2, H3.
  destruct (respond_to_mentions env s0) as [[r|e] s1]; cbn [fst snd] in *.
  - repeat split; try assumption.
  - repeat split; try assumption. discriminate.
Qed.

End Counters.

(** C8: every run starts with the three counters at zero, because the job
    builds its instance with the constructor first, whatever the jobs before
    counted: [w] is any world, the one an earlier job left included.  So at
    the end of the run, also when it raises, [mentions_found] is the number of
    mentions this run fetched, [mentions_replied] the number of posting calls
    of this run that returned and [mentions_replied_errors] the number of
    those that raised, and the line that ends the job shows these values. *)
Theorem counters_start_at_zero (env : Env) (w : World) (me : Z) :
  env_get_me env (tick w) = Ok me ->
  let s := job_start env me w in
  let s' := snd (execute_replies env s) in
  job env w = (fst (execute_replies env s), world s') /\
  TwitterBot_init env
    {| airtable_rows := airtable_rows w;
       events := events w;
       stdout := LJobExecuted (env_now env (tick w)) :: stdout w |}
    = (Ok (self s), world s) /\
  mentions_found (self s) = 0 /\
  mentions_replied (self s) = 0 /\
  mentions_replied_errors (self s) = 0 /\
  mentions_found (self s') =
    match fetch env s with
    | Ok (Some (m :: ms)) => Z.of_nat (length (m :: ms))
    | _ => 0
    end /\
  mentions_replied (self s') = calls is_post_ok s' - calls is_post_ok s /\
  mentions_replied_errors (self s')
    = calls is_post_failed s' - calls is_post_failed s /\
  (fst (execute_replies env s) = Ok tt ->
   hd_error (stdout (world s')) =
     Some (LFinishedJob (env_now env (tick (world s')))
             (mentions_found (self s')) (mentions_replied (self s'))
             (mentions_replied_errors (self s')))).
Proof.
  intros Hme. cbv zeta.
  pose proof (execute_replies_counters env (job_start env me w))
    as (H1 & H2 & H3 & H4).
  cbv zeta in H1, H2, H3, H4.
  split.
  { rewrite job_eq, Hme.
    destruct (execute_replies env (job_start env me w)); reflexivity. }
  split.
  { rewrite TwitterBot_init_eq. unfold tick in *. cbn [events].
    rewrite Hme. reflexivity. }
  cbn [job_start self fresh_bot mentions_found mentions_replied
       mentions_replied_errors] in H1, H2, H3 |- *.
  repeat split; try lia; assumption.
Qed.

(** Two jobs: the first answers the mention 11, the second starts at zero
    in the world the first left and answers nothing. *)
Lemma counters_start_at_zero_witness :
  let env := scripted (Some [m11]) any_tweet (fun _ => Ok "soon"%string)
               (fun _ => Ok "99"%string) None in
  let w := snd (job env empty_world) in
  let s := job_start env 1 w in
  let s' := snd (execute_replies env s) in
  hd_error (stdout w) = Some (LFinishedJob 1700000007 1 1 0) /\
  mentions_replied (self s) = 0 /\
  mentions_replied (self s') = calls is_post_ok s' - calls is_post_ok s /\
  hd_error (stdout (world s')) = Some (LFinishedJob 1700000011 1 0 0).
Proof.
  cbv zeta.
  pose proof (counters_start_at_zero
                (scripted (Some [m11]) any_tweet (fun _ => Ok "soon"%string)
                   (fun _ => Ok "99"%string) None)
                (snd (job (scripted (Some [m11]) any_tweet
                             (fun _ => Ok "soon"%string)
                             (fun _ => Ok "99"%string) None) empty_world))
                1 eq_refl)
    as (_ & _ & _ & Hzero & _ & _ & Hreplied & _ & _).
  cbv zeta in Hzero, Hreplied.
  split; [vm_compute; reflexivity|].
  split; [exact Hzero|]. split; [exact Hreplied|].
  vm_compute. reflexivity.
Defined.

(** ** Scheduled jobs *)

Section Schedule.

Variable env : Env.

(** The last job of a schedule runs in the world the jobs before it left. *)
Lemma scheduler_last (n : nat) (w : World) :
  scheduler env (S n) w = (scheduler env n ;;; job env) w.
Proof.
  revert w. induction n as [|n IH]; intros w.
  - cbn [scheduler]. unfold bind, ret.
    destruct (job env w) as [[[]|e] w1]; reflexivity.
  - specialize (IH (snd (job env w))).
    cbn [scheduler] in *. unfold bind in *.
    destruct (job env w) as [[[]|e] w1]; [exact IH | reflexivity].
Qed.

Lemma job_report (w w' : World) :
  job env w = (Ok tt, w') ->
  exists me,
    env_get_me env (tick w) = Ok me /\
    job env w =
      (let '(r, s) := execute_replies env (job_start env me w) in
       (r, world s)) /\
    hd_error (stdout w') =
      Some (LFinishedJob (env_now env (tick w'))
              match fetch env (job_start env me w) with
              | Ok (Some (m :: ms)) => Z.of_nat (length (m :: ms))
              | _ => 0
              end
              (count_events is_post_ok (events w')
               - count_events is_post_ok (events w))
              (count_events is_post_failed (events w')
               - count_events is_post_failed (events w))).
Proof.
  intros Hjob. pose proof (job_eq env w) as Heq.
  destruct (env_get_me env (tick w)) as [me|e] eqn:Hme;
    [|rewrite Heq in Hjob; discriminate].
  exists me. split; [reflexivity|]. split; [exact Heq|].
  rewrite Heq in Hjob.
  pose proof (execute_replies_counters env (job_start env me w))
    as (H1 & H2 & H3 & H4).
  cbv zeta in H1, H2, H3, H4.
  destruct (execute_replies env (job_start env me w)) as [r s'].
  inversion Hjob; subst r w'. cbn [fst snd] in *.
  rewrite (H4 eq_refl). unfold finished_line.
  unfold calls, job_start in H1, H2. cbn [self world events] in H1, H2.
  rewrite !count_events_cons in H1, H2.
  cbn [is_post_ok is_post_failed is_post ev_call ev_raised andb
       fresh_bot mentions_replied mentions_replied_errors] in H1, H2.
  rewrite H3. cbn [job_start self fresh_bot mentions_found].
  f_equal. f_equal; lia.
Qed.

End Schedule.

(** C10: a job builds its instance with the constructor and runs
    [execute_replies] on it, so what earlier jobs counted is not seen: after
    any number of scheduled jobs, the line that ends the next job reports the
    mentions fetched by that job and the posting calls of that job that
    returned and that raised, and nothing of the jobs before. *)
Theorem job_counters_are_fresh (env : Env) (n : nat) (w w' : World) :
  scheduler env (S n) w = (Ok tt, w') ->
  exists wn me,
    scheduler env n w = (Ok tt, wn) /\
    job env wn = (Ok tt, w') /\
    env_get_me env (tick wn) = Ok me /\
    self (job_start env me wn) = fresh_bot me /\
    job env wn =
      (let '(r, s) := execute_replies env (job_start env me wn) in
       (r, world s)) /\
    hd_error (stdout w') =
      Some (LFinishedJob (env_now env (tick w'))
              match fetch env (job_start env me wn) with
              | Ok (Some (m :: ms)) => Z.of_nat (length (m :: ms))
              | _ => 0
              end
              (count_events is_post_ok (events w')
               - count_events is_post_ok (events wn))
              (count_events is_post_failed (events w')
               - count_events is_post_failed (events wn))).
Proof.
  intros Hsched. rewrite scheduler_last in Hsched. unfold bind in Hsched.
  destruct (scheduler env n w) as [[[]|e] wn]; [|discriminate].
  destruct (job_report env wn w' Hsched) as (me & Hme & Heq & Hline).
  exists wn, me. repeat split; assumption.
Qed.

(** The first job answers the mention 11; in the second job the table has
    the row and nothing is posted. *)
Lemma job_counters_are_fresh_witness :
  let env := scripted (Some [m11]) any_tweet (fun _ => Ok "soon"%string)
               (fun _ => Ok "99"%string) None in
  hd_error (stdout (snd (scheduler env 1 empty_world)))
    = Some (LFinishedJob 1700000007 1 1 0) /\
  exists wn me,
    scheduler env 1 empty_world = (Ok tt, wn) /\
    job env wn = (Ok tt, snd (scheduler env 2 empty_world)) /\
    env_get_me env (tick wn) = Ok me /\
    self (job_start env me wn) = fresh_bot me /\
    job env wn =
      (let '(r, s) := execute_replies env (job_start env me wn) in
       (r, world s)) /\
    hd_error (stdout (snd (scheduler env 2 empty_world))) =
      Some (LFinishedJob
              (env_now env (tick (snd (scheduler env 2 empty_world))))
              match fetch env (job_start env me wn) with
              | Ok (Some (m :: ms)) => Z.of_nat (length (m :: ms))
              | _ => 0
              end
              (count_events is_post_ok
                 (events (snd (scheduler env 2 empty_world)))
               - count_events is_post_ok (events wn))
              (count_events is_post_failed
                 (events (snd (scheduler env 2 empty_world)))
               - count_events is_post_failed (events wn))).
Proof.
  cbv zeta. split; [vm_compute; reflexivity|].
  apply (job_counters_are_fresh
           (scripted (Some [m11]) any_tweet (fun _ => Ok "soon"%string)
              (fun _ => Ok "99"%string) None)
           1 empty_world).
  vm_compute. reflexivity.
Defined.

(** ** The order of the calls in a run *)

Lemma Trail_refl (w : World) : Trail 0 w w.
Proof.
  constructor; try lia. exists []. now rewrite app_nil_r.
Qed.

Lemma Trail_trans (a b : Z) (w1 w2 w3 : World) :
  Trail a w1 w2 -> Trail b w2 w3 -> Trail (a + b) w1 w3.
Proof.
  intros [] []. constructor; try lia.
  destruct trail_kept0 as [a1 E1], trail_kept1 as [a2 E2].
  exists (a1 ++ a2). now rewrite E2, E1, app_assoc.
Qed.

Lemma Trail_weaken (a b : Z) (w w' : World) :
  a <= b -> Trail a w w' -> Trail b w w'.
Proof.
  intros Hle []. constructor; try assumption; lia.
Qed.

Ltac count_made :=
  unfold made, log_call, tick; cbn [events world self airtable_rows length];
  rewrite ?count_events_cons, ?length_app;
  cbn [is_post_ok is_post_failed is_post is_get_tweet is_llm is_store
       is_insert is_insert_ok is_llm_ok is_get_all is_get_all_ok
       is_get_tweet_ok ev_call ev_raised andb negb length].

Ltac split_cases :=
  repeat match goal with
    | |- context [match ?x with _ => _ end] =>
        lazymatch x with
        | context [match _ with _ => _ end] => fail
        | _ => destruct x eqn:?; simpl
        end
    end.

Section Order.

Variable env : Env.

Lemma loop_body_Trail (mention : Mention) (s : State) :
  Trail 5 (world s) (world (snd (loop_body env mention s))).
Proof.
  unfold_bot. split_cases;
    (constructor; count_made; try lia;
     try (exists []; now rewrite app_nil_r);
     try (eexists; reflexivity)).
Qed.

Lemma for_each_Trail (mentions : list Mention) (s : State) :
  Trail (5 * Z.of_nat (length mentions)) (world s)
    (world (snd (for_each env mentions s))).
Proof.
  revert s. induction mentions as [|m rest IH]; intros s.
  - apply Trail_refl.
  - cbn [for_each length]. unfold bind. rewrite Nat2Z.inj_succ.
    pose proof (loop_body_Trail m s) as H1.
    destruct (loop_body env m s) as [[[]|e] s1]; cbn [snd] in H1 |- *.
    + replace (5 * Z.succ (Z.of_nat (length rest)))
        with (5 + 5 * Z.of_nat (length rest)) by lia.
      eapply Trail_trans; [exact H1 | apply IH].
    + eapply Trail_weaken; [|exact H1]. lia.
Qed.

End Order.

Section OrderOfARun.

Variable env : Env.

Lemma fetched_Trail (s : State) : Trail 1 (world s) (world (fetched env s)).
Proof.
  unfold fetched, mentions_call.
  constructor; count_made; try lia.
  exists []. now rewrite app_nil_r.
Qed.

Lemma respond_to_mentions_Trail (s : State) (n : Z) :
  0 <= n ->
  (forall ms : list Mention,
     Z.of_nat (length (slice_to (tweet_response_limit (self s)) ms)) <= n) ->
  Trail (1 + 5 * n) (world s) (world (snd (respond_to_mentions env s))).
Proof.
  intros Hn Hcap. rewrite respond_to_mentions_eq.
  pose proof (fetched_Trail s) as Hf.
  assert (Hno : Trail 1 (world s) (world (no_mentions (fetched env s))))
    by (destruct Hf as []; constructor; assumption).
  destruct (fetch env s) as [[[|m ms]|]|e] eqn:E; cbn [snd].
  1, 3: eapply Trail_weaken; [|exact Hno]; lia.
  2: eapply Trail_weaken; [|exact Hf]; lia.
  rewrite snd_then_ret.
  set (s1 := with_found _ _).
  change (world (fetched env s)) with (world s1) in Hf.
  pose proof (for_each_Trail env
                (slice_to (tweet_response_limit (self s)) (m :: ms)) s1) as H.
  specialize (Hcap (m :: ms)).
  eapply Trail_weaken; [|eapply Trail_trans; [exact Hf | exact H]].
  lia.
Qed.

Lemma execute_replies_Trail (s : State) (n : Z) :
  0 <= n ->
  (forall ms : list Mention,
     Z.of_nat (length (slice_to (tweet_response_limit (self s)) ms)) <= n) ->
  Trail (1 + 5 * n) (world s) (world (snd (execute_replies env s))).
Proof.
  intros Hn Hcap. rewrite execute_replies_eq.
  set (s0 := printed _ s).
  pose proof (respond_to_mentions_Trail s0 n Hn Hcap) as H.
  destruct (respond_to_mentions env s0) as [[r|e] s1]; cbn [snd] in *.
  - destruct H as []. constructor; assumption.
  - destruct H as []. constructor; assumption.
Qed.

Lemma slice_35_le {A} (l : list A) :
  Z.of_nat (length (slice_to 35 l)) <= 35.
Proof.
  change (slice_to 35 l) with (firstn 35 l).
  pose proof (firstn_le_length 35 l). lia.
Qed.

Lemma job_Trail (w : World) : Trail 177 w (snd (job env w)).
Proof.
  rewrite job_eq.
  destruct (env_get_me env (tick w)) as [me|e]; cbn [snd].
  - pose proof (execute_replies_Trail (job_start env me w) 35 ltac:(lia)
                  (fun ms => slice_35_le ms)) as H.
    destruct (execute_replies env (job_start env me w)) as [r s].
    cbn [snd] in *.
    assert (H0 : Trail 1 w (world (job_start env me w))).
    { unfold job_start. constructor; count_made; try lia.
      exists []. now rewrite app_nil_r. }
    eapply Trail_weaken; [|eapply Trail_trans; [exact H0 | exact H]]. lia.
  - constructor; count_made; try lia.
    exists []. now rewrite app_nil_r.
Qed.

Lemma scheduler_Trail (n : nat) (w : World) :
  Trail (177 * Z.of_nat n) w (snd (scheduler env n w)).
Proof.
  revert w. induction n as [|n IH]; intros w.
  - apply Trail_refl.
  - cbn [scheduler]. unfold bind. rewrite Nat2Z.inj_succ.
    pose proof (job_Trail w) as H1.
    destruct (job env w) as [[[]|e] w1]; cbn [snd] in H1 |- *.
    + replace (177 * Z.succ (Z.of_nat n)) with (177 + 177 * Z.of_nat n)
        by lia.
      eapply Trail_trans; [exact H1 | apply IH].
    + eapply Trail_weaken; [|exact H1]. lia.
Qed.

End OrderOfARun.

(** ** The table as the bot reads and writes it *)

Lemma scan_records_app (l1 l2 : list ReplyRecord) (key : string) :
  scan_records (l1 ++ l2) key = scan_records l1 key || scan_records l2 key.
Proof.
  induction l1 as [|r l1 IH]; [reflexivity|].
  cbn [app scan_records].
  destruct (mentioned_conversation_tweet_id r) as [k|]; [|exact IH].
  destruct (String.eqb k key); [reflexivity | exact IH].
Qed.

Lemma str_inj (a b : Z) : str a = str b -> a = b.
Proof.
  unfold str. intros H. apply DecimalZ.to_int_inj.
  assert (E : Some (Z.to_int a) = Some (Z.to_int b))
    by (rewrite <- !NilEmpty.isi; now rewrite H).
  now inversion E.
Qed.

(** X1: [check_already_responded] reads the table once and changes nothing.
    When the reading returns, the answer is [True] exactly when some row has
    the field [mentioned_conversation_tweet_id] equal to [str] of the id; when
    the reading raises, so does the method. *)
Theorem check_already_responded_reads_the_table (env : Env) (s : State)
    (id : Z) :
  (env_get_all env (tick (world s)) = None ->
   exists b,
     check_already_responded env id s =
       (Ok b, {| self := self s;
                 world := log_call AirtableGetAll false (world s) |}) /\
     (b = true <-> has_record id (airtable_rows (world s)))) /\
  (forall e,
     env_get_all env (tick (world s)) = Some e ->
     check_already_responded env id s =
       (Raised e, {| self := self s;
                     world := log_call AirtableGetAll true (world s) |})).
Proof.
  split.
  - intros H. exists (scan_records (airtable_rows (world s)) (str id)).
    split; [|apply scan_records_has_record].
    unfold check_already_responded, bind, lift, airtable_get_all, ret.
    now rewrite H.
  - intros e H.
    unfold check_already_responded, bind, lift, airtable_get_all, ret.
    now rewrite H.
Qed.

Lemma check_already_responded_reads_the_table_witness :
  let s := start {| airtable_rows := [row5]; events := []; stdout := [] |} in
  exists b,
     check_already_responded env_post_fails 5 s =
       (Ok b, {| self := self s;
                 world := log_call AirtableGetAll false (world s) |}) /\
     (b = true <-> has_record 5 (airtable_rows (world s))).
Proof.
  cbv zeta.
  apply (check_already_responded_reads_the_table env_post_fails
           (start {| airtable_rows := [row5]; events := []; stdout := [] |}) 5).
  reflexivity.
Defined.

(** X2: [str] tells ids apart, so a row written for one tweet does not make
    another tweet look answered: after a row with the key of the tweet [x] is
    appended, the scan for a different id [y] answers as before. *)
Theorem record_of_another_tweet_is_ignored (rows : list ReplyRecord)
    (row : ReplyRecord) (x y : Z) :
  mentioned_conversation_tweet_id row = Some (str x) ->
  x <> y ->
  str x <> str y /\
  scan_records (rows ++ [row]) (str y) = scan_records rows (str y).
Proof.
  intros Hk Hne.
  assert (Hs : str x <> str y) by (intros E; apply Hne, str_inj, E).
  split; [exact Hs|].
  rewrite scan_records_app. cbn [scan_records]. rewrite Hk.
  apply String.eqb_neq in Hs. rewrite Hs. apply orb_false_r.
Qed.

Lemma record_of_another_tweet_is_ignored_witness :
  str 5 <> str 50 /\
  scan_records ([] ++ [row5]) (str 50) = scan_records [] (str 50).
Proof.
  apply (record_of_another_tweet_is_ignored [] row5 5 50).
  - reflexivity.
  - lia.
Defined.

(** X3: a reply that was posted and written is found again: when the model,
    the posting call and [insert] return, [respond_to_mention] returns [True],
    the table is the former table followed by the row of the reply, and a
    later [check_already_responded] for the conversation tweet answers
    [True]. *)
Theorem reply_is_recorded (env : Env) (mention : Mention) (t : Tweet)
    (s : State) (text rid : string) :
  env_llm_invoke env (tick (world s)) (tweet_text t) = Ok text ->
  env_create_tweet env (S (tick (world s))) text (mention_id mention) = Ok rid ->
  env_insert env (S (S (tick (world s))))
    (reply_row mention t rid text (env_now env (S (S (tick (world s))))))
    = None ->
  let s1 := snd (respond_to_mention env mention t s) in
  fst (respond_to_mention env mention t s) = Ok RTrue /\
  airtable_rows (world s1) =
    airtable_rows (world s)
    ++ [reply_row mention t rid text (env_now env (S (S (tick (world s)))))] /\
  has_record (tweet_id t) (airtable_rows (world s1)) /\
  (env_get_all env (tick (world s1)) = None ->
   fst (check_already_responded env (tweet_id t) s1) = Ok true).
Proof.
  intros H1 H2 H3. cbv zeta.
  rewrite (respond_to_mention_ok env mention t s text rid H1 H2 H3).
  cbn [fst snd world airtable_rows].
  assert (Hrec : has_record (tweet_id t)
                   (airtable_rows (world s)
                    ++ [reply_row mention t rid text
                          (env_now env (S (S (tick (world s)))))])).
  { eexists. split; [apply in_or_app; right; left; reflexivity|reflexivity]. }
  repeat split; [exact Hrec|].
  intros Hall.
  unfold check_already_responded, bind, lift, airtable_get_all, ret.
  cbn [world] in *. rewrite Hall. cbn [fst airtable_rows]. f_equal.
  now apply scan_records_has_record.
Qed.

Lemma reply_is_recorded_witness :
  let env := scripted (Some [m11]) any_tweet (fun _ => Ok "soon"%string)
               (fun _ => Ok "99"%string) None in
  let t := {| tweet_id := 5; tweet_text := "gm"%string |} in
  let s1 := snd (respond_to_mention env m11 t (start empty_world)) in
  fst (respond_to_mention env m11 t (start empty_world)) = Ok RTrue /\
  airtable_rows (world s1) =
    [] ++ [reply_row m11 t "99" "soon" 1700000002] /\
  has_record 5 (airtable_rows (world s1)) /\
  (env_get_all env (tick (world s1)) = None ->
   fst (check_already_responded env 5 s1) = Ok true).
Proof.
  cbv zeta.
  apply (reply_is_recorded
           (scripted (Some [m11]) any_tweet (fun _ => Ok "soon"%string)
              (fun _ => Ok "99"%string) None)
           m11 {| tweet_id := 5; tweet_text := "gm"%string |}
           (start empty_world) "soon"%string "99"%string);
    reflexivity.
Defined.

(** X4: the bot only appends to the table.  After any number of scheduled
    jobs, however they end, the table is the former table followed by new
    rows, so a conversation that has a row still has it. *)
Theorem recorded_conversation_stays_recorded (env : Env) (n : nat)
    (w : World) (id : Z) :
  has_record id (airtable_rows w) ->
  let w' := snd (scheduler env n w) in
  (exists added, airtable_rows w' = airtable_rows w ++ added) /\
  has_record id (airtable_rows w').
Proof.
  intros (r & Hin & Hk). cbv zeta.
  destruct (scheduler_Trail env n w) as [].
  split; [exact trail_kept0|].
  destruct trail_kept0 as [added E]. rewrite E.
  exists r. split; [apply in_or_app; now left | exact Hk].
Qed.

Lemma recorded_conversation_stays_recorded_witness :
  let env := scripted (Some [m12]) any_tweet (fun _ => Ok "soon"%string)
               (fun _ => Ok "99"%string) None in
  let w := {| airtable_rows := [row5]; events := []; stdout := [] |} in
  (exists added,
     airtable_rows (snd (scheduler env 3 w)) = airtable_rows w ++ added) /\
  has_record 5 (airtable_rows (snd (scheduler env 3 w))).
Proof.
  cbv zeta.
  apply (recorded_conversation_stays_recorded
           (scripted (Some [m12]) any_tweet (fun _ => Ok "soon"%string)
              (fun _ => Ok "99"%string) None)
           3 {| airtable_rows := [row5]; events := []; stdout := [] |} 5).
  exists row5. split; [now left | reflexivity].
Defined.

(** X5: two mentions of one conversation in the same run get one reply.
    When the first is answered and its row written, the second, which
    resolves to a tweet with the same id, finds the row and is skipped: one
    posting call, one more reply counted, one row. *)
Theorem second_mention_of_a_conversation_is_skipped (env : Env) (s : State)
    (m1 m2 : Mention) (rest : list Mention) (c1 c2 : Z) (t t2 : Tweet)
    (text rid : string) :
  eligible env m1 c1 t s ->
  env_llm_invoke env (S (S (tick (world s)))) (tweet_text t) = Ok text ->
  env_create_tweet env (S (S (S (tick (world s))))) text (mention_id m1)
    = Ok rid ->
  env_insert env (S (S (S (S (tick (world s))))))
    (reply_row m1 t rid text (env_now env (S (S (S (S (tick (world s))))))))
    = None ->
  conversation_id m2 = Some c2 ->
  env_get_tweet env (S (S (S (S (S (tick (world s))))))) c2 = Ok (Some t2) ->
  tweet_id t2 = tweet_id t ->
  tweet_id t2 <> mention_id m2 ->
  env_get_all env (S (S (S (S (S (S (tick (world s)))))))) = None ->
  exists s2,
    for_each env (m1 :: m2 :: rest) s = for_each env rest s2 /\
    calls is_post s2 = calls is_post s + 1 /\
    mentions_replied (self s2) = mentions_replied (self s) + 1 /\
    mentions_replied_errors (self s2) = mentions_replied_errors (self s) /\
    airtable_rows (world s2) =
      airtable_rows (world s)
      ++ [reply_row m1 t rid text
            (env_now env (S (S (S (S (tick (world s)))))))].
Proof.
  intros Hel Hllm Hpost Hins Hc2 Ht2 Hid Hne Hall.
  pose proof (loop_body_eligible env m1 c1 t s Hel) as Hb1.
  pose proof (respond_to_mention_ok env m1 t (after_check c1 s) text rid
                Hllm Hpost Hins) as Hr.
  unfold bind in Hb1. rewrite Hr in Hb1. unfold ret in Hb1.
  match type of Hb1 with _ = (_, ?x) => set (s1 := x) in * end.
  assert (Hscan : scan_records (airtable_rows (world s1)) (str (tweet_id t2))
                  = true).
  { subst s1. cbn [world airtable_rows]. rewrite scan_records_app, Hid.
    cbn [scan_records reply_row mentioned_conversation_tweet_id].
    rewrite String.eqb_refl. apply orb_true_r. }
  pose proof (loop_body_answered env s1 m2 c2 t2 Hc2 Ht2 Hne Hscan) as Hb2.
  change (env_get_all env (S (tick (world s1))))
    with (env_get_all env (S (S (S (S (S (S (tick (world s)))))))))
    in Hb2.
  rewrite Hall in Hb2.
  exists (after_check c2 s1). split.
  - cbn [for_each]. unfold bind. rewrite Hb1, Hb2. reflexivity.
  - subst s1. unfold after_check. count_calls. repeat split; lia.
Qed.

Lemma second_mention_of_a_conversation_is_skipped_witness :
  let env := scripted (Some [m11; m14]) any_tweet (fun _ => Ok "soon"%string)
               (fun _ => Ok "99"%string) None in
  let s := start empty_world in
  exists s2,
    for_each env [m11; m14] s = for_each env [] s2 /\
    calls is_post s2 = calls is_post s + 1 /\
    mentions_replied (self s2) = mentions_replied (self s) + 1 /\
    mentions_replied_errors (self s2) = mentions_replied_errors (self s) /\
    airtable_rows (world s2) =
      [] ++ [reply_row m11 {| tweet_id := 5; tweet_text := "gm" |}
               "99" "soon" 1700000004].
Proof.
  cbv zeta.
  apply (second_mention_of_a_conversation_is_skipped
           (scripted (Some [m11; m14]) any_tweet (fun _ => Ok "soon"%string)
              (fun _ => Ok "99"%string) None)
           (start empty_world) m11 m14 [] 5 5
           {| tweet_id := 5; tweet_text := "gm"%string |}
           {| tweet_id := 5; tweet_text := "gm"%string |}
           "soon"%string "99"%string);
    try reflexivity.
  - repeat split; try reflexivity. simpl. discriminate.
  - simpl. discriminate.
Defined.

(** X6: when fetching the mentions raises, the run ends with that exception
    right after the call: the instance and the table are as before and no
    other call is made.  The job then ends with the same exception after its
    first two lines, without the line that reports the counters. *)
Theorem fetch_failure_ends_the_run (env : Env) :
  (forall (s : State) (e : Exn),
     fetch env s = Raised e ->
     respond_to_mentions env s =
       (Raised e,
        {| self := self s;
           world := log_call (mentions_call env s) true (world s) |})) /\
  (forall (w : World) (me : Z) (e : Exn),
     env_get_me env (tick w) = Ok me ->
     fetch env (job_start env me w) = Raised e ->
     job env w =
       (Raised e,
        {| airtable_rows := airtable_rows w;
           events := {| ev_call := mentions_call env (job_start env me w);
                        ev_raised := true |}
                     :: {| ev_call := GetMe; ev_raised := false |}
                     :: events w;
           stdout := LStartingJob (env_now env (S (tick w)))
                     :: LJobExecuted (env_now env (tick w))
                     :: stdout w |})).
Proof.
  assert (Hrun : forall (s : State) (e : Exn),
            fetch env s = Raised e ->
            respond_to_mentions env s =
              (Raised e,
               {| self := self s;
                  world := log_call (mentions_call env s) true (world s) |})).
  { intros s e Hf. rewrite respond_to_mentions_eq. unfold fetched.
    rewrite Hf. reflexivity. }
  split; [exact Hrun|].
  intros w me e Hme Hf.
  rewrite job_eq, Hme, execute_replies_eq.
  set (s0 := printed _ _).
  change (fetch env (job_start env me w)) with (fetch env s0) in Hf.
  rewrite (Hrun s0 e Hf). reflexivity.
Qed.

Lemma fetch_failure_ends_the_run_witness :
  respond_to_mentions env_no_fetch {| self := used_bot; world := empty_world |}
    = (Raised (TwitterError "429"),
       {| self := used_bot;
          world := {| airtable_rows := [];
                      events := [ {| ev_call := GetUsersMentions 1 1699998800;
                                     ev_raised := true |} ];
                      stdout := [] |} |}) /\
  job env_no_fetch empty_world =
    (Raised (TwitterError "429"),
     {| airtable_rows := [];
        events := [ {| ev_call := GetUsersMentions 1 1699998801;
                       ev_raised := true |};
                    {| ev_call := GetMe; ev_raised := false |} ];
        stdout := [ LStartingJob 1700000001; LJobExecuted 1700000000 ] |}).
Proof.
  pose proof (fetch_failure_ends_the_run env_no_fetch) as [Hrun Hjob].
  split.
  - apply (Hrun {| self := used_bot; world := empty_world |}). reflexivity.
  - apply (Hjob empty_world 1); reflexivity.
Defined.

(** X7: when the constructor cannot get the account's id, the job ends with
    that exception after one call and one line, and no later job of the
    schedule runs. *)
Theorem constructor_failure_ends_the_schedule (env : Env) (n : nat)
    (w : World) (e : Exn) :
  env_get_me env (tick w) = Raised e ->
  scheduler env (S n) w =
    (Raised e,
     {| airtable_rows := airtable_rows w;
        events := {| ev_call := GetMe; ev_raised := true |} :: events w;
        stdout := LJobExecuted (env_now env (tick w)) :: stdout w |}).
Proof.
  intros Hme. cbn [scheduler]. unfold bind. rewrite job_eq, Hme. reflexivity.
Qed.

Lemma constructor_failure_ends_the_schedule_witness :
  scheduler env_no_me 4 empty_world =
    (Raised (TwitterError "401"),
     {| airtable_rows := [];
        events := [ {| ev_call := GetMe; ev_raised := true |} ];
        stdout := [ LJobExecuted 1700000000 ] |}).
Proof.
  apply (constructor_failure_ends_the_schedule env_no_me 3 empty_world).
  reflexivity.
Defined.

(** ** What a job reports *)

Lemma firstn_length_le {A} (n : nat) (l : list A) :
  (length (firstn n l) <= length l)%nat.
Proof.
  rewrite length_firstn. apply Nat.le_min_r.
Qed.

Lemma execute_replies_stats (env : Env) (me : Z) (w : World) :
  let s' := snd (execute_replies env {| self := fresh_bot me; world := w |}) in
  0 <= mentions_replied (self s') /\
  0 <= mentions_replied_errors (self s') /\
  mentions_replied (self s') + mentions_replied_errors (self s')
    <= mentions_found (self s') /\
  mentions_replied (self s') + mentions_replied_errors (self s') <= 35.
Proof.
  cbv zeta. rewrite execute_replies_eq.
  set (s0 := printed _ _).
  assert (H : let s' := snd (respond_to_mentions env s0) in
              0 <= mentions_replied (self s') /\
              0 <= mentions_replied_errors (self s') /\
              mentions_replied (self s') + mentions_replied_errors (self s')
                <= mentions_found (self s') /\
              mentions_replied (self s') + mentions_replied_errors (self s')
                <= 35).
  { cbv zeta. rewrite respond_to_mentions_eq.
    destruct (fetch env s0) as [[[|m ms]|]|e] eqn:Hf; cbn [snd].
    1, 3, 4:
      subst s0; unfold no_mentions, fetched, printed;
      cbn [self fresh_bot mentions_found mentions_replied
           mentions_replied_errors]; clear; lia.
    rewrite snd_then_ret.
    set (s1 := with_found _ _).
    change (slice_to (tweet_response_limit (self s0)) (m :: ms))
      with (firstn 35 (m :: ms)).
    pose proof (for_each_Span env (firstn 35 (m :: ms)) s1) as [].
    pose proof (firstn_le_length 35 (m :: ms)).
    pose proof (firstn_length_le 35 (m :: ms)).
    unfold calls in *.
    destruct (snd (for_each env _ s1)) as [b2 w2].
    subst s1 s0. unfold with_found, printed, fetched, log_call in *.
    cbn [self world events fresh_bot twitter_me_id tweet_response_limit
         mentions_found mentions_replied mentions_replied_errors] in *.
    rewrite !count_events_cons in *.
    cbn [is_post_ok is_post_failed is_post ev_call mentions_call andb] in *.
    repeat split; lia. }
  cbv zeta in H.
  destruct (respond_to_mentions env s0) as [[r|e] s1]; exact H.
Qed.

(** X9: the numbers a job reports fit together: the replies and the errors
    are not negative, together they are at most the mentions found, and at
    most 35. *)
Theorem job_stats_are_consistent (env : Env) (w w' : World) :
  job env w = (Ok tt, w') ->
  exists t found replied errors,
    hd_error (stdout w') = Some (LFinishedJob t found replied errors) /\
    0 <= replied /\ 0 <= errors /\
    replied + errors <= found /\
    replied + errors <= 35.
Proof.
  intros Hjob. rewrite job_eq in Hjob.
  destruct (env_get_me env (tick w)) as [me|e]; [|discriminate].
  pose proof (execute_replies_counters env (job_start env me w))
    as (_ & _ & _ & Hline).
  cbv zeta in Hline.
  destruct (execute_replies env (job_start env me w)) as [r s'] eqn:Hex.
  inversion Hjob; subst r w'. cbn [fst snd] in Hline.
  exists (env_now env (tick (world s'))), (mentions_found (self s')),
    (mentions_replied (self s')), (mentions_replied_errors (self s')).
  split; [exact (Hline eq_refl)|].
  pose proof (execute_replies_stats env me (world (job_start env me w))) as H.
  cbv zeta in H.
  change {| self := fresh_bot me; world := world (job_start env me w) |}
    with (job_start env me w) in H.
  rewrite Hex in H. exact H.
Qed.

Lemma job_stats_are_consistent_witness :
  exists t found replied errors,
    hd_error (stdout (snd (job env_post_fails empty_world)))
      = Some (LFinishedJob t found replied errors) /\
    0 <= replied /\ 0 <= errors /\
    replied + errors <= found /\
    replied + errors <= 35.
Proof.
  apply (job_stats_are_consistent env_post_fails empty_world).
  vm_compute. reflexivity.
Defined.

(** ** The calls of a schedule *)

(** X10: a row is written only for a reply that was posted.  Over any
    number of scheduled jobs, the rows the table gains are as many as the
    calls of [insert] that returned, [insert] is called once for every
    posting call that returned, and so the table gains at most as many rows
    as replies were posted. *)
Theorem rows_follow_replies (env : Env) (n : nat) (w : World) :
  let w' := snd (scheduler env n w) in
  Z.of_nat (length (airtable_rows w')) - Z.of_nat (length (airtable_rows w))
    = made is_insert_ok w' - made is_insert_ok w /\
  made is_insert w' - made is_insert w
    = made is_post_ok w' - made is_post_ok w /\
  0 <= Z.of_nat (length (airtable_rows w'))
       - Z.of_nat (length (airtable_rows w))
    <= made is_post_ok w' - made is_post_ok w.
Proof.
  cbv zeta. destruct (scheduler_Trail env n w) as []. lia.
Qed.

(** X11: nothing is posted without the table and the model.  Over any number
    of scheduled jobs, the posting calls are as many as the answers of the
    model, and at most as many as the readings of the table that returned,
    which are at most as many as the conversation tweets that were fetched. *)
Theorem replies_follow_the_check (env : Env) (n : nat) (w : World) :
  let w' := snd (scheduler env n w) in
  made is_post w' - made is_post w = made is_llm_ok w' - made is_llm_ok w /\
  made is_post w' - made is_post w
    <= made is_get_all_ok w' - made is_get_all_ok w /\
  made is_get_all_ok w' - made is_get_all_ok w
    <= made is_get_tweet_ok w' - made is_get_tweet_ok w.
Proof.
  cbv zeta. destruct (scheduler_Trail env n w) as []. lia.
Qed.

(** X12: the work of a job is bounded: a job makes at most 177 calls to its
    collaborators, which are [get_me], the fetch and five calls for each of
    35 mentions, and [n] jobs make at most [177 * n]; the bound is reached by
    a job with 35 mentions to answer. *)
Theorem calls_are_bounded (env : Env) (n : nat) (w : World) :
  (tick w <= tick (snd (job env w)) <= tick w + 177)%nat /\
  (tick w <= tick (snd (scheduler env n w)) <= tick w + 177 * n)%nat /\
  tick (snd (job (scripted (Some fifty) any_tweet (fun _ => Ok "soon"%string)
                    (fun _ => Ok "99"%string) None) empty_world)) = 177%nat.
Proof.
  destruct (job_Trail env w) as [lo1 hi1 _ _ _ _ _ _ _ _ _ _].
  destruct (scheduler_Trail env n w) as [lo2 hi2 _ _ _ _ _ _ _ _ _ _].
  split; [lia|]. split; [lia|]. vm_compute. reflexivity.
Qed.

(** ** The lines a run prints *)

Lemma count_lines_cons (p : Line -> bool) (l : Line) (ls : list Line) :
  count_lines p (l :: ls) = (if p l then 1 else 0) + count_lines p ls.
Proof. reflexivity. Qed.

Ltac count_printed :=
  unfold lines, log_call; cbn [stdout world self];
  rewrite ?count_lines_cons;
  cbn [is_starting is_finished is_exn_line mentions_replied_errors].

Section Lines.

Variable env : Env.

Lemma Quiet_trans (s1 s2 s3 : State) : Quiet s1 s2 -> Quiet s2 s3 -> Quiet s1 s3.
Proof.
  intros [] []. constructor; lia.
Qed.

Lemma loop_body_Quiet (mention : Mention) (s : State) :
  Quiet s (snd (loop_body env mention s)).
Proof.
  unfold_bot. split_cases; (constructor; count_printed; lia).
Qed.

Lemma for_each_Quiet (mentions : list Mention) (s : State) :
  Quiet s (snd (for_each env mentions s)).
Proof.
  revert s. induction mentions as [|m rest IH]; intros s.
  - constructor; reflexivity.
  - cbn [for_each]. unfold bind.
    pose proof (loop_body_Quiet m s) as H1.
    destruct (loop_body env m s) as [[[]|e] s1]; cbn [snd] in H1 |- *.
    + eapply Quiet_trans; [exact H1 | apply IH].
    + exact H1.
Qed.

Lemma respond_to_mentions_Quiet (s : State) :
  Quiet s (snd (respond_to_mentions env s)).
Proof.
  rewrite respond_to_mentions_eq.
  destruct (fetch env s) as [[[|m ms]|]|e]; cbn [snd].
  1, 3, 4: unfold no_mentions, fetched; constructor; count_printed; lia.
  rewrite snd_then_ret.
  eapply Quiet_trans; [|apply for_each_Quiet].
  unfold with_found, fetched. constructor; count_printed; lia.
Qed.

End Lines.

(** X13: what [execute_replies] prints tells how the run went.  It prints
    one line that starts the job; it prints the line that ends the job, once,
    exactly when the run returns, and no such line when the run raises; and it
    prints one exception for each error it counts. *)
Theorem lines_tell_the_outcome (env : Env) (s : State) :
  let s' := snd (execute_replies env s) in
  lines is_starting s' = lines is_starting s + 1 /\
  lines is_finished s' =
    lines is_finished s
    + (if is_raised (fst (execute_replies env s)) then 0 else 1) /\
  mentions_replied_errors (self s') - mentions_replied_errors (self s)
    = lines is_exn_line s' - lines is_exn_line s.
Proof.
  cbv zeta. rewrite execute_replies_eq.
  set (s0 := printed _ s).
  pose proof (respond_to_mentions_Quiet env s0) as [H1 H2 H3].
  assert (E1 : lines is_starting s0 = lines is_starting s + 1)
    by (subst s0; unfold printed; count_printed; lia).
  assert (E2 : lines is_finished s0 = lines is_finished s)
    by (subst s0; unfold printed; count_printed; lia).
  assert (E3 : lines is_exn_line s0 = lines is_exn_line s)
    by (subst s0; unfold printed; count_printed; lia).
  change (self s0) with (self s) in H3.
  destruct (respond_to_mentions env s0) as [[r|e] s1];
    cbn [fst snd is_raised] in *.
  - unfold printed, finished_line. count_printed.
    unfold lines in *. repeat split; lia.
  - unfold lines in *. repeat split; lia.
Qed.

(** ** Posting failures and the schedule *)

Section Dependable.

Variable env : Env.
Hypothesis Hdep : dependable env.

Ltac env_answers :=
  match goal with
  | H : env_get_tweet env ?t ?c = _ |- _ =>
      destruct (dep_tweet env Hdep t c) as [? E]; rewrite E in H;
      inversion H; subst; clear H E
  | H : env_llm_invoke env ?t ?x = _ |- _ =>
      destruct (dep_llm env Hdep t x) as [? E]; rewrite E in H;
      inversion H; subst; clear H E
  | H : env_get_all env ?t = Some _ |- _ =>
      rewrite (dep_get_all env Hdep t) in H; discriminate
  | H : env_insert env ?t ?r = Some _ |- _ =>
      rewrite (dep_insert env Hdep t r) in H; discriminate
  end.

Lemma loop_body_returns (mention : Mention) (s : State) :
  conversation_id mention <> None ->
  fst (loop_body env mention s) = Ok tt.
Proof.
  intros Hc. unfold_bot.
  destruct (conversation_id mention) as [c|]; [|contradiction]. simpl.
  split_cases; repeat env_answers; try reflexivity; discriminate.
Qed.

Lemma for_each_returns (mentions : list Mention) (s : State) :
  (forall m, In m mentions -> conversation_id m <> None) ->
  fst (for_each env mentions s) = Ok tt.
Proof.
  revert s. induction mentions as [|m rest IH]; intros s Hall; [reflexivity|].
  cbn [for_each]. unfold bind.
  pose proof (loop_body_returns m s (Hall m (or_introl eq_refl))) as H.
  destruct (loop_body env m s) as [[[]|e] s1]; cbn [fst] in H;
    [|discriminate].
  apply IH. intros m' Hin. apply Hall. now right.
Qed.

Lemma slice_to_In {A} (n : Z) (l : list A) (x : A) :
  In x (slice_to n l) -> In x l.
Proof.
  unfold slice_to. destruct (0 <=? n); intros Hin;
    match type of Hin with
    | In _ (firstn ?k _) =>
        rewrite <- (firstn_skipn k l); apply in_or_app; now left
    end.
Qed.

Lemma respond_to_mentions_returns (s : State) :
  is_raised (fst (respond_to_mentions env s)) = false.
Proof.
  rewrite respond_to_mentions_eq. unfold fetch.
  destruct (dep_mentions env Hdep (tick (world s)) (twitter_me_id (self s))
              (env_now env (tick (world s)) - 1200)) as (answer & E & Hall).
  rewrite E.
  destruct answer as [[|m ms]|]; try reflexivity.
  unfold bind, ret.
  pose proof (for_each_returns
                (slice_to (tweet_response_limit (self s)) (m :: ms))
                (with_found (Z.of_nat (length (m :: ms))) (fetched env s)))
    as H.
  destruct (for_each env _ _) as [[[]|e] s1]; [reflexivity|].
  cbn [fst] in H. discriminate H.
  intros m' Hin. apply (Hall (m :: ms)); [reflexivity|].
  eapply slice_to_In, Hin.
Qed.

Lemma job_returns (w : World) : fst (job env w) = Ok tt.
Proof.
  rewrite job_eq.
  destruct (dep_me env Hdep (tick w)) as [me E]. rewrite E.
  rewrite execute_replies_eq.
  set (s0 := printed _ _).
  pose proof (respond_to_mentions_returns s0) as H.
  destruct (respond_to_mentions env s0) as [[r|e] s1]; [reflexivity|].
  discriminate H.
Qed.

End Dependable.

(** X8: a posting call that raises never ends the schedule.  When every
    collaborator but [create_tweet] answers, every fetched mention has a
    conversation id and every conversation tweet can be shown, each job
    returns and so does any number of scheduled jobs, whatever the outcome
    of each posting call. *)
Theorem post_failures_never_end_the_schedule (env : Env) (n : nat)
    (w : World) :
  dependable env ->
  fst (job env w) = Ok tt /\ fst (scheduler env n w) = Ok tt.
Proof.
  intros Hdep. split; [apply job_returns, Hdep|].
  revert w. induction n as [|n IH]; intros w; [reflexivity|].
  cbn [scheduler]. unfold bind.
  pose proof (job_returns env Hdep w) as H.
  destruct (job env w) as [[[]|e] w1]; cbn [fst] in H; [apply IH|discriminate].
Qed.

Lemma post_failures_never_end_the_schedule_witness :
  fst (job env_post_fails empty_world) = Ok tt /\
  fst (scheduler env_post_fails 3 empty_world) = Ok tt.
Proof.
  apply (post_failures_never_end_the_schedule env_post_fails 3 empty_world).
  constructor; cbn.
  - intros _. exists 1. reflexivity.
  - intros _ _ _. exists (Some [m11; m12; m13]). split; [reflexivity|].
    intros ms m [= <-] [<-|[<-|[<-|[]]]]; discriminate.
  - intros _ c. eexists. reflexivity.
  - intros _ _. eexists. reflexivity.
  - intros _. reflexivity.
  - intros _ _. reflexivity.
Defined.
